(** * Ultravox training set-up: the dataset pipeline and the training configuration

    A shallow embedding of [ultravox/training/train.py] ([fix_hyphens],
    [prepare_dataset] and the dataset part of [train]) and of
    [ultravox/training/config_base.py] ([TrainConfig] and its
    [__post_init__]).

    Conventions.
    - A Python [str] is a [string]; every character the code inspects
      ([-], [=], [_]) is ASCII, and no byte of a multi-byte UTF-8 character
      is an ASCII byte, so working on bytes is working on code points.
    - A Python [int] is a [Z]; a [float] that the code only stores or passes
      on is a [Q] (the one float literal in scope is [1.0]).
    - [Optional[T]] is [option T]; a Python object that is shared and
      assigned to lives in a heap and is handed around by reference.
    - The exceptions of the model are the ones the modelled code raises
      itself (a failed [assert], and the read of an attribute that the
      class of the object does not declare); a collaborator from another
      module ([datasets.create_dataset], [dataset_config.DataDictConfig],
      ...) is a call that returns.
    - The classes of [ultravox.data.datasets] are not part of the two
      files: the objects [prepare_dataset] and [train] build are kept as
      the constructor calls that made them, and what these objects do
      (their reported lengths, the Range Limiter) follows the
      specification, in definitions marked as such. *)

From Stdlib Require Import ZArith QArith Lia Ascii String.
From stdpp Require Import base option list strings.

Local Open Scope string_scope.
Local Open Scope list_scope.
Local Open Scope Z_scope.

(** ** Command-line arguments: [fix_hyphens] *)

(** [str.replace(old, new)] for one-character [old] and [new]. *)
Fixpoint str_replace (old new : ascii) (s : string) : string :=
  match s with
  | EmptyString => EmptyString
  | String c s' => String (if Ascii.eqb c old then new else c) (str_replace old new s')
  end.

(** The greedy character class [[^=]*] read at the start of [s]: the longest
    prefix without ["="], and what is left.  ([[^=]] matches a newline as
    well: a negated class does so in Python.) *)
Fixpoint span_not_eq (s : string) : string * string :=
  match s with
  | EmptyString => (EmptyString, EmptyString)
  | String c s' =>
      if Ascii.eqb c "=" then (EmptyString, s)
      else let '(g, t) := span_not_eq s' in (String c g, t)
  end.

(** The one possible match of [r"^--([^=]+)"] in [arg]: [^] (no MULTILINE
    flag) anchors it at index 0, and the group is the last item of the
    pattern, so greedy [+] takes the longest run and never gives back.  The
    result is group 1 and the text after the match; [None] when [arg] does
    not start with ["--"] or nothing but ["="] or the end follows. *)
Definition match_option_name (arg : string) : option (string * string) :=
  match arg with
  | String c1 (String c2 rest) =>
      if Ascii.eqb c1 "-" && Ascii.eqb c2 "-" then
        match span_not_eq rest with
        | (EmptyString, _) => None
        | (g, t) => Some (g, t)
        end
      else None
  | _ => None
  end.

(** [re.sub(r"^--([^=]+)", lambda m: "--" + m.group(1).replace("-", "_"), arg)]:
    the match, if any, is replaced and the rest is copied; after a match at
    index 0 no other position can match [^]. *)
Definition fix_hyphens (arg : string) : string :=
  match match_option_name arg with
  | Some (g, t) => "--" +:+ str_replace "-" "_" g +:+ t
  | None => arg
  end.

(** No ["="] occurs in [s]. *)
Fixpoint no_eq_sign (s : string) : bool :=
  match s with
  | EmptyString => true
  | String c s' => negb (Ascii.eqb c "=") && no_eq_sign s'
  end.

(** [s] is empty or starts with ["="]: what may follow an option name. *)
Definition value_segment (s : string) : bool :=
  match s with
  | EmptyString => true
  | String c _ => Ascii.eqb c "="
  end.

(** ** The data model *)

(** [dataset_config.StopStrategy]. *)
Inductive StopStrategy := FIRST_EXHAUSTED | LAST_EXHAUSTED | NEVER_STOP.

(** [datasets.DatasetSplit]. *)
Inductive DatasetSplit := TRAIN | VALIDATION.

(** A value of a parsed dictionary ([Dict[str, Any]]). *)
#[warnings="-register-all"]
Inductive PyValue :=
| PyNone
| PyBool (b : bool)
| PyInt (z : Z)
| PyFloat (q : Q)
| PyStr (s : string)
| PyList (l : list PyValue).

(** [dataset_config.DataDictConfig] called with the entries of a parsed
    dictionary as keyword arguments: the class is defined in another module;
    the object is the constructor applied to the arguments it was given. *)
Inductive DataDictConfig := DataDictConfig_of (kwargs : list (string * PyValue)).

(** An entry of [data_sets]: a dataset name, or (after [__post_init__]) an
    embedded dict spec. *)
Inductive DataSetEntry :=
| DSName (name : string)
| DSDict (cfg : DataDictConfig).

(** [ultravox_config.LoraConfigSimplified], as far as the code reads it. *)
Record LoraConfigSimplified := { r : Z }.

(** A [pathlib.Path] built by the code: [Path(s)] and [p / seg]. *)
Inductive Path :=
| PathOf (s : string)
| PathDiv (p : Path) (seg : string).

(** What [__post_init__] reads from the process: [torch.cuda.is_available()],
    [torch.backends.mps.is_available()], the clock formatted by
    [strftime("exp--%Y-%m-%d--%H-%M-%S")], and the [WORLD_SIZE] variable. *)
Record Env := {
  cuda_is_available : bool;
  mps_is_available : bool;
  now_strftime : string;
  WORLD_SIZE : option string
}.

(** [datasets.VoiceDatasetArgs]: the options the spec lists (number of
    prompt variants, split, data directory, shuffle flag and seed, maximum
    audio duration, whether audio is included, batch size of the columnar
    storage) and [use_mds], which [train] passes as well. *)
Module VoiceDatasetArgs.
Record t := {
  num_prompts : Z;
  split : DatasetSplit;
  data_dir : option string;
  shuffle : bool;
  shuffle_seed : Z;
  max_audio_duration_secs : option Q;
  include_audio : bool;
  use_mds : bool;
  mds_batch_size : Z
}.
End VoiceDatasetArgs.

(** [dataset_config.InterleaveDataConfig] and its entries, as
    [prepare_dataset] reads them. *)
Module InterleaveDataConfig.
Record DatasetMultiplier := {
  dataset : DataSetEntry;
  multiplier : Q
}.
Record t := {
  datasets_with_multiplier : list DatasetMultiplier;
  stop_strategy : StopStrategy
}.
End InterleaveDataConfig.

(** [config_base.TrainConfig].  [E] is the type of an entry of [data_sets]
    and [D] the type of an entry of [data_dicts]: the parser fills them with
    names and dictionaries, [__post_init__] leaves dataset entries and
    [DataDictConfig] objects.  Fields that neither [__post_init__] nor the
    dataset part of [train] reads are left out. *)
Module TrainConfig.
Record t (E D : Type) := {
  data_sets : list E;
  val_sets : list string;
  text_model : string;
  audio_model : string;
  data_dicts : option (list D);
  do_train : bool;
  do_eval : bool;
  stop_strategy : StopStrategy;
  data_dir : option string;
  mds : bool;
  num_samples : option Z;
  val_num_samples : Z;
  num_prompts : Z;
  train_on_inputs : bool;
  shuffle_data : bool;
  max_audio_duration_secs : option Q;
  device : string;
  data_type : string;
  audio_model_lora_config : option LoraConfigSimplified;
  disable_layerdrop : bool;
  exp_name : option string;
  output_dir : option Path;
  logs_dir : option Path;
  optimizer : string;
  max_steps : Z;
  batch_size : Z;
  shuffle_seed : Z
}.
Arguments data_sets {E D}.
Arguments val_sets {E D}.
Arguments text_model {E D}.
Arguments audio_model {E D}.
Arguments data_dicts {E D}.
Arguments do_train {E D}.
Arguments do_eval {E D}.
Arguments stop_strategy {E D}.
Arguments data_dir {E D}.
Arguments mds {E D}.
Arguments num_samples {E D}.
Arguments val_num_samples {E D}.
Arguments num_prompts {E D}.
Arguments train_on_inputs {E D}.
Arguments shuffle_data {E D}.
Arguments max_audio_duration_secs {E D}.
Arguments device {E D}.
Arguments data_type {E D}.
Arguments audio_model_lora_config {E D}.
Arguments disable_layerdrop {E D}.
Arguments exp_name {E D}.
Arguments output_dir {E D}.
Arguments logs_dir {E D}.
Arguments optimizer {E D}.
Arguments max_steps {E D}.
Arguments batch_size {E D}.
Arguments shuffle_seed {E D}.

(** The configuration as the parser builds it, before [__post_init__]. *)
Definition parsed := t string (list (string * PyValue)).

(** The configuration object the program works with. *)
Definition config := t DataSetEntry DataDictConfig.

(** The dataclass's generated [__init__] with every optional field at its
    default: the four required fields are the arguments. *)
Definition defaults (data_sets val_sets : list string) (text_model audio_model : string)
  : parsed :=
  {| data_sets := data_sets;
     val_sets := val_sets;
     text_model := text_model;
     audio_model := audio_model;
     data_dicts := None;
     do_train := true;
     do_eval := true;
     stop_strategy := LAST_EXHAUSTED;
     data_dir := None;
     mds := false;
     num_samples := None;
     val_num_samples := 100;
     num_prompts := 1;
     train_on_inputs := false;
     shuffle_data := false;
     max_audio_duration_secs := None;
     device := "cuda";
     data_type := "bfloat16";
     audio_model_lora_config := None;
     disable_layerdrop := false;
     exp_name := None;
     output_dir := None;
     logs_dir := None;
     optimizer := "adamw_torch";
     max_steps := 0;
     batch_size := 2;
     shuffle_seed := 42 |}.

(** The names of the fields that the dataclass declares, in the order of
    their declarations (config_base.py, lines 18 to 90): the attributes of
    an instance that [__init__] and [__post_init__] have built. *)
Definition fields : list string :=
  ["data_sets"; "val_sets"; "text_model"; "audio_model"; "data_dicts";
   "do_train"; "do_eval"; "stop_strategy"; "data_dir"; "mds"; "num_samples";
   "val_num_samples"; "eval_num_samples"; "eval_max_new_tokens";
   "eval_num_procs"; "num_prompts"; "num_workers"; "train_on_inputs";
   "shuffle_data"; "max_audio_duration_secs"; "verbose"; "device"; "data_type";
   "model_load_dir"; "text_model_lora_config"; "audio_model_lora_config";
   "disable_layerdrop"; "exp_name"; "output_dir"; "logs_dir"; "optimizer";
   "num_epochs"; "max_steps"; "val_steps"; "save_steps"; "logging_steps";
   "grad_accum_steps"; "val_accum_steps"; "batch_size"; "lr"; "lr_scheduler";
   "lr_warmup_steps"; "weight_decay"; "seed"; "shuffle_seed"; "report_logs_to";
   "run_tags"; "loss_config"].
End TrainConfig.

(** ** Outcomes *)

(** What the modelled code raises: the bare [assert] of [__post_init__],
    the [assert] of [prepare_dataset], whose message names the dataset and
    its length, and the read of an attribute that an object does not have,
    whose message names the attribute. *)
Inductive Exception (DS : Type) :=
| AssertionError
| AssertionError_too_short (ds : DS) (len : Z)
| AttributeError (name : string).
Arguments AssertionError {DS}.
Arguments AssertionError_too_short {DS}.
Arguments AttributeError {DS}.

Inductive Outcome (X A : Type) :=
| Returned (a : A)
| Raised (e : X).
Arguments Returned {X A}.
Arguments Raised {X A}.

(** ** [TrainConfig.__post_init__] *)

(** [x in l] for a list of strings. *)
Definition str_in (x : string) (l : list string) : bool :=
  existsb (String.eqb x) l.

(** [if self.data_dicts:] is the truth value of an optional list. *)
Definition truthy {A} (l : option (list A)) : bool :=
  match l with
  | Some (_ :: _) => true
  | _ => false
  end.

(** The method, on the object the generated [__init__] has just filled.  The
    statements are kept in their order; a field assigned by one of them is
    bound once ([device1], ...) and read from there by the later ones.
    [self.data_sets.extend] appends to the list in place. *)
Definition post_init (env : Env) (self : TrainConfig.parsed)
  : Outcome (Exception unit) TrainConfig.config :=
  let data_dicts1 :=
    if truthy (TrainConfig.data_dicts self)
    then option_map (map DataDictConfig_of) (TrainConfig.data_dicts self)
    else option_map (fun _ => []) (TrainConfig.data_dicts self) in
  let data_sets1 :=
    if truthy (TrainConfig.data_dicts self)
    then map DSName (TrainConfig.data_sets self)
         ++ map DSDict (default [] data_dicts1)
    else map DSName (TrainConfig.data_sets self) in
  if negb (str_in (TrainConfig.data_type self) ["bfloat16"; "float16"; "float32"])
  then Raised AssertionError
  else
    let device1 :=
      if String.eqb (TrainConfig.device self) "cuda" && negb (cuda_is_available env)
      then (if mps_is_available env then "mps" else "cpu")
      else TrainConfig.device self in
    let data_type1 :=
      if negb (String.eqb device1 "cuda") && String.eqb (TrainConfig.data_type self) "bfloat16"
      then "float32" else TrainConfig.data_type self in
    let optimizer1 :=
      if negb (String.eqb device1 "cuda") && String.eqb (TrainConfig.optimizer self) "adamw_bnb_8bit"
      then "adamw_torch" else TrainConfig.optimizer self in
    let exp_name1 :=
      match TrainConfig.exp_name self with
      | None => now_strftime env
      | Some n => n
      end in
    let output_dir1 :=
      match TrainConfig.output_dir self with
      | None => PathDiv (PathOf "runs") exp_name1
      | Some p => p
      end in
    let logs_dir1 :=
      match TrainConfig.logs_dir self with
      | None => PathDiv output_dir1 "logs"
      | Some p => p
      end in
    let disable_layerdrop1 :=
      if match TrainConfig.audio_model_lora_config self with
         | Some lora => r lora >? 0
         | None => false
         end
         && bool_decide (is_Some (WORLD_SIZE env))
         && negb (TrainConfig.disable_layerdrop self)
      then true else TrainConfig.disable_layerdrop self in
    Returned
      {| TrainConfig.data_sets := data_sets1;
         TrainConfig.val_sets := TrainConfig.val_sets self;
         TrainConfig.text_model := TrainConfig.text_model self;
         TrainConfig.audio_model := TrainConfig.audio_model self;
         TrainConfig.data_dicts := data_dicts1;
         TrainConfig.do_train := TrainConfig.do_train self;
         TrainConfig.do_eval := TrainConfig.do_eval self;
         TrainConfig.stop_strategy := TrainConfig.stop_strategy self;
         TrainConfig.data_dir := TrainConfig.data_dir self;
         TrainConfig.mds := TrainConfig.mds self;
         TrainConfig.num_samples := TrainConfig.num_samples self;
         TrainConfig.val_num_samples := TrainConfig.val_num_samples self;
         TrainConfig.num_prompts := TrainConfig.num_prompts self;
         TrainConfig.train_on_inputs := TrainConfig.train_on_inputs self;
         TrainConfig.shuffle_data := TrainConfig.shuffle_data self;
         TrainConfig.max_audio_duration_secs := TrainConfig.max_audio_duration_secs self;
         TrainConfig.device := device1;
         TrainConfig.data_type := data_type1;
         TrainConfig.audio_model_lora_config := TrainConfig.audio_model_lora_config self;
         TrainConfig.disable_layerdrop := disable_layerdrop1;
         TrainConfig.exp_name := Some exp_name1;
         TrainConfig.output_dir := Some output_dir1;
         TrainConfig.logs_dir := Some logs_dir1;
         TrainConfig.optimizer := optimizer1;
         TrainConfig.max_steps := TrainConfig.max_steps self;
         TrainConfig.batch_size := TrainConfig.batch_size self;
         TrainConfig.shuffle_seed := TrainConfig.shuffle_seed self |}.

Section Ultravox.

Local Set Default Proof Using "Type".

(** The type of [ultravox_processing.UltravoxProcessor] objects. *)
Variable Processor : Type.

(** The field values of a [VoiceDatasetArgs] built with no argument: the
    class is defined in [ultravox.data.datasets]. *)
Variable VoiceDatasetArgs_defaults : VoiceDatasetArgs.t.

(** [len(ds)] of the dataset that [datasets.create_dataset(ds, data_args)]
    returns, as a function of its two arguments. *)
Variable source_len : DataSetEntry -> VoiceDatasetArgs.t -> Z.

(** ** Dataset objects *)

(** A reference to a [VoiceDatasetArgs] object of the heap. *)
Definition Ref := nat.

(** The dataset objects the code builds, each the constructor call that made
    it: [datasets.create_dataset], [datasets.InterleaveDataset],
    [data_processing.UltravoxDataproc], [datasets.Range] and
    [datasets.EmptyDataset].  A source dataset keeps the reference to the
    arguments object it was given. *)
#[warnings="-register-all"]
Inductive Dataset :=
| SourceDataset (ds : DataSetEntry) (args : Ref)
| InterleaveDataset (datasets : list Dataset) (stop_strategy : StopStrategy)
    (multipliers : list Q)
| UltravoxDataproc (dataset : Dataset) (processor : Processor)
    (train_on_inputs include_alt_fields : bool)
| Range (dataset : Dataset) (num_samples : option Z)
| EmptyDataset (len : Z).

(** ** The interpreter state: a heap of arguments objects and a trace *)

Inductive Event :=
| EvNewArgs (r : Ref)
| EvCopyArgs (src dst : Ref)
| EvSetAttr (r : Ref) (field : string)
| EvCreateDataset (ds : DataSetEntry) (args : Ref)
| EvInterleaveDataset (n : nat)
| EvUltravoxDataproc
| EvRange (num_samples : option Z)
| EvEmptyDataset (len : Z).

Record State := {
  heap : list VoiceDatasetArgs.t;
  trace : list Event
}.

Definition heap_get (h : list VoiceDatasetArgs.t) (r : Ref) : VoiceDatasetArgs.t :=
  default VoiceDatasetArgs_defaults (h !! r).

Definition emit (ev : Event) (st : State) : State :=
  {| heap := heap st; trace := trace st ++ [ev] |}.

(** A computation: it returns or raises, and leaves a state either way. *)
Definition M (A : Type) : Type := State -> Outcome (Exception Dataset) A * State.

Definition ret {A} (a : A) : M A := fun st => (Returned a, st).

Definition bind {A B} (m : M A) (k : A -> M B) : M B :=
  fun st =>
    match m st with
    | (Returned a, st') => k a st'
    | (Raised e, st') => (Raised e, st')
    end.

Notation "'do' x <- m ; k" := (bind m (fun x => k))
  (at level 10, x name, m at level 100, k at level 200).
Notation "'do' ' p <- m ; k" := (bind m (fun x => match x with p => k end))
  (at level 10, p pattern, m at level 100, k at level 200).

(** A [for] loop or a comprehension over a list, left to right. *)
Fixpoint for_each {A B} (f : A -> M B) (l : list A) : M (list B) :=
  match l with
  | [] => ret []
  | x :: l' => do y <- f x; do ys <- for_each f l'; ret (y :: ys)
  end.

(** [assert cond, msg]. *)
Definition py_assert (cond : bool) (e : Exception Dataset) : M unit :=
  fun st => if cond then (Returned tt, st) else (Raised e, st).

(** [datasets.VoiceDatasetArgs(...)]: a new object. *)
Definition new_VoiceDatasetArgs (a : VoiceDatasetArgs.t) : M Ref :=
  fun st =>
    let r := length (heap st) in
    (Returned r, {| heap := heap st ++ [a]; trace := trace st ++ [EvNewArgs r] |}).

(** [copy.copy(obj)]: a new object with the fields of [obj]. *)
Definition copy_copy (src : Ref) : M Ref :=
  fun st =>
    let r := length (heap st) in
    (Returned r, {| heap := heap st ++ [heap_get (heap st) src];
                    trace := trace st ++ [EvCopyArgs src r] |}).

(** [a] with [include_audio] set to [v]. *)
Definition with_include_audio (a : VoiceDatasetArgs.t) (v : bool) : VoiceDatasetArgs.t :=
  {| VoiceDatasetArgs.num_prompts := VoiceDatasetArgs.num_prompts a;
     VoiceDatasetArgs.split := VoiceDatasetArgs.split a;
     VoiceDatasetArgs.data_dir := VoiceDatasetArgs.data_dir a;
     VoiceDatasetArgs.shuffle := VoiceDatasetArgs.shuffle a;
     VoiceDatasetArgs.shuffle_seed := VoiceDatasetArgs.shuffle_seed a;
     VoiceDatasetArgs.max_audio_duration_secs := VoiceDatasetArgs.max_audio_duration_secs a;
     VoiceDatasetArgs.include_audio := v;
     VoiceDatasetArgs.use_mds := VoiceDatasetArgs.use_mds a;
     VoiceDatasetArgs.mds_batch_size := VoiceDatasetArgs.mds_batch_size a |}.

(** [obj.include_audio = v]. *)
Definition set_include_audio (r : Ref) (v : bool) : M unit :=
  fun st =>
    (Returned tt,
     {| heap := <[r := with_include_audio (heap_get (heap st) r) v]> (heap st);
        trace := trace st ++ [EvSetAttr r "include_audio"] |}).

(** [datasets.create_dataset(ds, data_args)]. *)
Definition create_dataset (ds : DataSetEntry) (data_args : Ref) : M Dataset :=
  fun st => (Returned (SourceDataset ds data_args), emit (EvCreateDataset ds data_args) st).

(** [datasets.InterleaveDataset(data_sets, stop_strategy=..., multipliers=...)]. *)
Definition new_InterleaveDataset (data_sets : list Dataset)
    (stop_strategy : StopStrategy) (multipliers : list Q) : M Dataset :=
  fun st => (Returned (InterleaveDataset data_sets stop_strategy multipliers),
             emit (EvInterleaveDataset (length data_sets)) st).

(** [data_processing.UltravoxDataproc(dataset, processor=..., ...)]. *)
Definition new_UltravoxDataproc (dataset : Dataset) (processor : Processor)
    (train_on_inputs include_alt_fields : bool) : M Dataset :=
  fun st => (Returned (UltravoxDataproc dataset processor train_on_inputs include_alt_fields),
             emit EvUltravoxDataproc st).

(** [datasets.Range(dataset, num_samples=...)]. *)
Definition new_Range (dataset : Dataset) (num_samples : option Z) : M Dataset :=
  fun st => (Returned (Range dataset num_samples), emit (EvRange num_samples) st).

(** [datasets.EmptyDataset(len)]. *)
Definition new_EmptyDataset (len : Z) : M Dataset :=
  fun st => (Returned (EmptyDataset len), emit (EvEmptyDataset len) st).

(** [datasets.EmptyDataset()]: the length of a stand-in that is built with
    no argument is the default value of the parameter of its constructor,
    which is fixed in [ultravox.data.datasets]. *)
Variable EmptyDataset_default_length : Z.

Definition new_EmptyDataset_default : M Dataset :=
  new_EmptyDataset EmptyDataset_default_length.

(** ** Reported lengths *)

(** Modelled from the spec: the [__len__] methods of the dataset classes,
    which are defined in [ultravox.data.datasets].  The Interleave Engine
    reports the sum of the lengths of its sources (4.1); the Range Limiter
    reports the minimum of its cap and the inner length when capped and the
    inner length otherwise (4.2); the stand-in dataset reports the length it
    was given (4.4); the Dataproc Adapter turns each sample it consumes into
    one output (4.3) and reports the length of its input.  A source dataset
    reports [source_len] at the arguments object it refers to. *)
Fixpoint ds_len (h : list VoiceDatasetArgs.t) (d : Dataset) : Z :=
  match d with
  | SourceDataset ds args => source_len ds (heap_get h args)
  | InterleaveDataset datasets _ _ =>
      (fix sum_len (l : list Dataset) : Z :=
         match l with
         | [] => 0
         | d' :: l' => ds_len h d' + sum_len l'
         end) datasets
  | UltravoxDataproc dataset _ _ _ => ds_len h dataset
  | Range dataset None => ds_len h dataset
  | Range dataset (Some cap) => Z.min cap (ds_len h dataset)
  | EmptyDataset len => len
  end.

(** [len(ds)]. *)
Definition py_len (d : Dataset) : M Z :=
  fun st => (Returned (ds_len (heap st) d), st).

(** ** [prepare_dataset] *)

(** Lines 53 to 67: the sources, their multipliers and the stop strategy,
    from an [InterleaveDataConfig] or from a plain list. *)
Definition resolve_interleave
    (interleave_dataset : InterleaveDataConfig.t + list DataSetEntry) (data_args : Ref)
  : M (list Dataset * list Q * StopStrategy) :=
  match interleave_dataset with
  | inl cfg =>
      do data_sets <-
        for_each (fun ds => create_dataset (InterleaveDataConfig.dataset ds) data_args)
                 (InterleaveDataConfig.datasets_with_multiplier cfg);
      let multipliers :=
        map InterleaveDataConfig.multiplier
            (InterleaveDataConfig.datasets_with_multiplier cfg) in
      let stop_strategy := InterleaveDataConfig.stop_strategy cfg in
      ret (data_sets, multipliers, stop_strategy)
  | inr names =>
      do data_sets <- for_each (fun ds => create_dataset ds data_args) names;
      let stop_strategy := LAST_EXHAUSTED in
      let multipliers := repeat 1%Q (length data_sets) in
      ret (data_sets, multipliers, stop_strategy)
  end.

(** Lines 72 to 75: the loop of assertions. *)
Definition check_lengths (data_sets : list Dataset) : M unit :=
  do _ <- for_each
            (fun ds => do n <- py_len ds;
                       py_assert (n >? 1) (AssertionError_too_short ds n))
            data_sets;
  ret tt.

Definition prepare_dataset
    (train_args : TrainConfig.config)
    (interleave_dataset : InterleaveDataConfig.t + list DataSetEntry)
    (data_args : Ref)
    (processor : Processor)
    (train_on_inputs : bool)
    (num_samples : option Z)
    (include_alt_fields : bool)
    (enforce_ds_len_epoch : bool) : M Dataset :=
  do '(data_sets, multipliers, stop_strategy) <-
    resolve_interleave interleave_dataset data_args;
  let using_epochs := Z.eqb (TrainConfig.max_steps train_args) 0 in
  do _ <- (if using_epochs && enforce_ds_len_epoch
           then check_lengths data_sets else ret tt);
  do interleave <- new_InterleaveDataset data_sets stop_strategy multipliers;
  do ds_with_proc <-
    new_UltravoxDataproc interleave processor train_on_inputs include_alt_fields;
  do limited_ds <- new_Range ds_with_proc num_samples;
  ret limited_ds.

(** ** The dataset part of [train] (lines 220 to 275) *)

(** [d[k] = v] on a dict kept in insertion order: a key that is present
    keeps its place and gets the new value. *)
Fixpoint dict_set {V} (k : string) (v : V) (d : list (string * V)) : list (string * V) :=
  match d with
  | [] => [(k, v)]
  | (k', v') :: d' =>
      if String.eqb k' k then (k', v) :: d' else (k', v') :: dict_set k v d'
  end.

(** [dict(pairs)]. *)
Definition dict_of_pairs {V} (pairs : list (string * V)) : list (string * V) :=
  fold_left (fun d kv => dict_set (fst kv) (snd kv) d) pairs [].

(** [{k: f(k, d[k]) for k in d}]: the keys of a dict are distinct, so the
    comprehension makes one entry per key, in the order of the keys. *)
Definition dict_comprehension {V W} (f : string -> V -> M W) (d : list (string * V))
  : M (list (string * W)) :=
  for_each (fun kv => do w <- f (fst kv) (snd kv); ret (fst kv, w)) d.

(** [val_sets] of line 220. *)
Definition val_sets_dict (args : TrainConfig.config) : list (string * list DataSetEntry) :=
  dict_of_pairs
    (map (fun x => (x, [DSName x])) (TrainConfig.val_sets args)
     ++ map (fun x => ("text_" +:+ x, [DSName x])) (TrainConfig.val_sets args)).

(** The arguments object of the training set (lines 231 to 239). *)
Definition train_data_args (args : TrainConfig.config) : VoiceDatasetArgs.t :=
  {| VoiceDatasetArgs.num_prompts := TrainConfig.num_prompts args;
     VoiceDatasetArgs.split := VoiceDatasetArgs.split VoiceDatasetArgs_defaults;
     VoiceDatasetArgs.data_dir := TrainConfig.data_dir args;
     VoiceDatasetArgs.shuffle := TrainConfig.shuffle_data args;
     VoiceDatasetArgs.shuffle_seed := TrainConfig.shuffle_seed args;
     VoiceDatasetArgs.max_audio_duration_secs := TrainConfig.max_audio_duration_secs args;
     VoiceDatasetArgs.include_audio := VoiceDatasetArgs.include_audio VoiceDatasetArgs_defaults;
     VoiceDatasetArgs.use_mds := TrainConfig.mds args;
     VoiceDatasetArgs.mds_batch_size := TrainConfig.batch_size args |}.

(** The arguments object of the validation sets (lines 244 to 252). *)
Definition val_data_args (args : TrainConfig.config) : VoiceDatasetArgs.t :=
  {| VoiceDatasetArgs.num_prompts := 1;
     VoiceDatasetArgs.split := VALIDATION;
     VoiceDatasetArgs.data_dir := TrainConfig.data_dir args;
     VoiceDatasetArgs.shuffle := false;
     VoiceDatasetArgs.shuffle_seed := VoiceDatasetArgs.shuffle_seed VoiceDatasetArgs_defaults;
     VoiceDatasetArgs.max_audio_duration_secs := Some (16 # 1)%Q;
     VoiceDatasetArgs.include_audio := VoiceDatasetArgs.include_audio VoiceDatasetArgs_defaults;
     VoiceDatasetArgs.use_mds := TrainConfig.mds args;
     VoiceDatasetArgs.mds_batch_size := TrainConfig.batch_size args |}.

(** [args.interleave_datasets] (lines 227 and 268), for the [args] that
    [train] is given: an instance of [config_base.TrainConfig].  The class
    is a dataclass that declares no field of this name (it is not in
    [TrainConfig.fields]) and defines neither a property nor [__getattr__]
    (config_base.py, lines 16 to 131), so the instance that its [__init__]
    and [__post_init__] leave has no such attribute, and the read raises
    [AttributeError]. *)
Definition get_interleave_datasets (args : TrainConfig.config)
  : M (InterleaveDataConfig.t + list DataSetEntry) :=
  fun st => (Raised (AttributeError "interleave_datasets"), st).

(** Lines 220 to 275 of [train].  [local_rank] is
    [int(os.environ.get("LOCAL_RANK", 0))] and [requires_alt_fields] is
    [model.loss_config.requires_alt_fields].  The arguments of the call of
    line 225 are evaluated in the order in which they are written:
    [args.interleave_datasets] is read before the arguments object of lines
    231 to 239 is built.  The result is [train_dataset] and
    [val_datasets]. *)
Definition train_datasets
    (args : TrainConfig.config)
    (local_rank : Z)
    (processor : Processor)
    (requires_alt_fields : bool) : M (Dataset * list (string * Dataset)) :=
  let is_master := Z.eqb local_rank 0 in
  let val_sets := val_sets_dict args in
  do interleave_datasets <- get_interleave_datasets args;
  do data_args <- new_VoiceDatasetArgs (train_data_args args);
  do train_dataset <-
    prepare_dataset args interleave_datasets data_args processor
      (TrainConfig.train_on_inputs args) (TrainConfig.num_samples args)
      requires_alt_fields true;
  if is_master then
    do val_ds_args <- new_VoiceDatasetArgs (val_data_args args);
    do val_ds_args_text <- copy_copy val_ds_args;
    do _ <- set_include_audio val_ds_args_text false;
    do val_datasets <-
      dict_comprehension
        (fun k v =>
           prepare_dataset args (inr v)
             (if String.prefix "text_" k then val_ds_args_text else val_ds_args)
             processor (TrainConfig.train_on_inputs args)
             (Some (TrainConfig.val_num_samples args))
             requires_alt_fields false)
        val_sets;
    do _ <- get_interleave_datasets args;
    ret (train_dataset, val_datasets)
  else
    do n <- py_len train_dataset;
    do train_dataset <- new_EmptyDataset n;
    do val_datasets <- dict_comprehension (fun _ _ => new_EmptyDataset_default) val_sets;
    ret (train_dataset, val_datasets).

(** ** Lazy sequences *)

(** A pull-driven sequence: one request gives the next sample and the state
    to go on from, or [None] when the sequence has ended. *)
Definition Iter (St A : Type) : Type := St -> option (A * St).

(** At most [n] requests, starting from [s]: the samples delivered and the
    state reached. *)
Fixpoint pull {St A} (it : Iter St A) (n : nat) (s : St) : list A * St :=
  match n with
  | O => ([], s)
  | S n' =>
      match it s with
      | None => ([], s)
      | Some (a, s') => let '(l, s'') := pull it n' s' in (a :: l, s'')
      end
  end.

(** From [s] the sequence delivers exactly the samples [l] and then ends. *)
Inductive yields {St A} (it : Iter St A) : St -> list A -> Prop :=
| yields_end s : it s = None -> yields it s []
| yields_next s a s' l : it s = Some (a, s') -> yields it s' l -> yields it s (a :: l).

(** From [s] the sequence never ends. *)
Definition endless {St A} (it : Iter St A) (s : St) : Prop :=
  forall n, length (fst (pull it n s)) = n.

(** Modelled from the spec: the Range Limiter (4.2), whose class
    [datasets.Range] is defined in [ultravox.data.datasets].  Its state is
    the number of samples it has delivered in this iteration and the state
    of the wrapped sequence.  With a cap, it ends once that many samples
    have been delivered, without asking the wrapped sequence for more;
    otherwise it hands on what the wrapped sequence gives. *)
Definition Range_next {St A} (num_samples : option Z) (inner : Iter St A)
  : Iter (Z * St) A :=
  fun '(count, s) =>
    let go_on :=
      match inner s with
      | Some (a, s') => Some (a, (count + 1, s'))
      | None => None
      end in
    match num_samples with
    | Some cap => if cap <=? count then None else go_on
    | None => go_on
    end.

(** The start of an iteration of the Range Limiter over a wrapped sequence
    that stands at [s]. *)
Definition Range_iter {St} (s : St) : Z * St := (0, s).

(** The [InterleaveDataset] object inside what [prepare_dataset] returns. *)
Definition interleave_of (d : Dataset) : option Dataset :=
  match d with
  | Range (UltravoxDataproc i _ _ _) _ => Some i
  | _ => None
  end.

(** ** Reading the arguments and the trace *)

(** The dataset entries an [interleave_dataset] argument names, in order. *)
Definition entries_of (i : InterleaveDataConfig.t + list DataSetEntry) : list DataSetEntry :=
  match i with
  | inl cfg => map InterleaveDataConfig.dataset (InterleaveDataConfig.datasets_with_multiplier cfg)
  | inr names => names
  end.

(** The source datasets created for them with one arguments object. *)
Definition sources_of (i : InterleaveDataConfig.t + list DataSetEntry) (data_args : Ref)
  : list Dataset :=
  map (fun ds => SourceDataset ds data_args) (entries_of i).

(** The calls of [create_dataset] that create them. *)
Definition creations_of (i : InterleaveDataConfig.t + list DataSetEntry) (data_args : Ref)
  : list Event :=
  map (fun ds => EvCreateDataset ds data_args) (entries_of i).

(** The multipliers and the stop strategy that go with them. *)
Definition multipliers_of (i : InterleaveDataConfig.t + list DataSetEntry) : list Q :=
  match i with
  | inl cfg =>
      map InterleaveDataConfig.multiplier (InterleaveDataConfig.datasets_with_multiplier cfg)
  | inr names => repeat 1%Q (length names)
  end.

Definition stop_of (i : InterleaveDataConfig.t + list DataSetEntry) : StopStrategy :=
  match i with
  | inl cfg => InterleaveDataConfig.stop_strategy cfg
  | inr _ => LAST_EXHAUSTED
  end.

(** The state after the events [t] were added to the trace of [st]. *)
Definition logged (st : State) (t : list Event) : State :=
  {| heap := heap st; trace := trace st ++ t |}.

(** The assertion of line 73 fails for [d]. *)
Definition too_short (h : list VoiceDatasetArgs.t) (d : Dataset) : bool :=
  negb (ds_len h d >? 1).


(** What [prepare_dataset] and the dataset constructors may add to the
    trace when they work with the arguments object [data_args]: calls of
    [create_dataset] with that object, and constructions of datasets. *)
Definition calm (data_args : Ref) (ev : Event) : Prop :=
  match ev with
  | EvCreateDataset _ r => r = data_args
  | EvInterleaveDataset _ | EvUltravoxDataproc | EvRange _ | EvEmptyDataset _ => True
  | EvNewArgs _ | EvCopyArgs _ _ | EvSetAttr _ _ => False
  end.




(** The state a run of [train] starts from: no arguments object yet, and an
    empty trace. *)
Definition initial_state : State := {| heap := []; trace := [] |}.

(** * Properties *)

(** ** [fix_hyphens] *)

Lemma span_not_eq_segments (name rest : string) :
  no_eq_sign name = true -> value_segment rest = true ->
  span_not_eq (name +:+ rest) = (name, rest).
Proof.
  induction name as [|c name IH]; simpl; intros Hname Hrest.
  - destruct rest as [|c rest]; simpl in *; [reflexivity|].
    now rewrite Hrest.
  - apply andb_true_iff in Hname as [Hc Hname].
    apply negb_true_iff in Hc. rewrite Hc.
    now rewrite (IH Hname Hrest).
Qed.

Lemma span_not_eq_splits (s : string) :
  let '(g, t) := span_not_eq s in
  s = g +:+ t /\ no_eq_sign g = true /\ value_segment t = true.
Proof.
  induction s as [|c s IH]; simpl; [easy|].
  destruct (Ascii.eqb c "=") eqn:Hc.
  - simpl. now rewrite Hc.
  - destruct (span_not_eq s) as [g t]. destruct IH as (-> & Hg & Ht).
    simpl. now rewrite Hc, Hg.
Qed.

Lemma prefix_dashes (arg : string) :
  String.prefix "--" arg = true <-> exists rest, arg = "--" +:+ rest.
Proof.
  split.
  - destruct arg as [|c1 [|c2 rest]]; cbn [String.prefix]; try discriminate.
    + destruct (ascii_dec "-" c1); discriminate.
    + destruct (ascii_dec "-" c1) as [<-|]; [|discriminate].
      destruct (ascii_dec "-" c2) as [<-|]; [|discriminate].
      intros _. now exists rest.
  - intros [rest ->]. now destruct rest.
Qed.

Lemma match_option_name_no_prefix (arg : string) :
  String.prefix "--" arg = false -> match_option_name arg = None.
Proof.
  intros Hp. destruct arg as [|c1 [|c2 rest]]; try reflexivity.
  unfold match_option_name.
  destruct (Ascii.eqb c1 "-") eqn:H1; [|reflexivity].
  destruct (Ascii.eqb c2 "-") eqn:H2; [|reflexivity].
  apply Ascii.eqb_eq in H1, H2. subst.
  destruct rest; discriminate.
Qed.

(** C8. [fix_hyphens] rewrites the option name and nothing else.  An
    argument that starts with two hyphens splits into the two hyphens, the
    option name (the characters up to the first equals sign or the end) and
    the value segment (empty, or the equals sign and what follows); the
    result keeps the hyphens and the value segment and replaces the name by
    its copy in which each hyphen is an underscore and every other
    character is itself.  An argument that does not start with two hyphens
    is returned as it is. *)
Theorem fix_hyphens_option_name :
  (forall name rest,
      no_eq_sign name = true -> value_segment rest = true ->
      fix_hyphens ("--" +:+ name +:+ rest) = "--" +:+ str_replace "-" "_" name +:+ rest)
  /\ (forall arg,
        String.prefix "--" arg = true ->
        exists name rest,
          arg = "--" +:+ name +:+ rest
          /\ no_eq_sign name = true /\ value_segment rest = true)
  /\ (forall arg, String.prefix "--" arg = false -> fix_hyphens arg = arg)
  /\ (forall s n,
        String.get n (str_replace "-" "_" s)
        = option_map (fun c => if Ascii.eqb c "-" then "_"%char else c) (String.get n s)).
Proof.
  repeat split.
  - intros name rest Hname Hrest.
    change ("--" +:+ name +:+ rest) with (String "-" (String "-" (name +:+ rest))).
    unfold fix_hyphens, match_option_name.
    rewrite Ascii.eqb_refl, (span_not_eq_segments _ _ Hname Hrest).
    destruct name; reflexivity.
  - intros arg Hp. apply prefix_dashes in Hp as [rest ->].
    pose proof (span_not_eq_splits rest) as Hs.
    destruct (span_not_eq rest) as [g t]. destruct Hs as (-> & Hg & Ht).
    now exists g, t.
  - intros arg Hp. unfold fix_hyphens.
    now rewrite (match_option_name_no_prefix _ Hp).
  - induction s as [|c s IH]; intros n; [reflexivity|].
    destruct n as [|n]; simpl; [reflexivity|apply IH].
Qed.

(** ** [TrainConfig.__post_init__] *)

Lemma post_init_returns (env : Env) (self : TrainConfig.parsed) :
  str_in (TrainConfig.data_type self) ["bfloat16"; "float16"; "float32"] = true ->
  exists c, post_init env self = Returned c.
Proof. intros Hin. unfold post_init. rewrite Hin. simpl. eauto. Qed.

(** C9. When [__post_init__] returns and the device it settled on is not
    cuda, the data type is not bfloat16 (a bfloat16 it was given has become
    float32) and the optimizer is not adamw_bnb_8bit (an adamw_bnb_8bit it
    was given has become adamw_torch).  A data type outside bfloat16,
    float16 and float32 makes it raise an assertion error, and a data type
    among them makes it return. *)
Theorem post_init_device_coercion (env : Env) (self : TrainConfig.parsed) :
  (forall c,
      post_init env self = Returned c ->
      TrainConfig.device c <> "cuda" ->
      TrainConfig.data_type c <> "bfloat16"
      /\ TrainConfig.optimizer c <> "adamw_bnb_8bit"
      /\ (TrainConfig.data_type self = "bfloat16" -> TrainConfig.data_type c = "float32")
      /\ (TrainConfig.optimizer self = "adamw_bnb_8bit"
          -> TrainConfig.optimizer c = "adamw_torch"))
  /\ (str_in (TrainConfig.data_type self) ["bfloat16"; "float16"; "float32"] = false ->
      post_init env self = Raised AssertionError)
  /\ (str_in (TrainConfig.data_type self) ["bfloat16"; "float16"; "float32"] = true ->
      exists c, post_init env self = Returned c).
Proof.
  split; [|split].
  - intros c Hc Hdev. unfold post_init in Hc.
    destruct (str_in _ _); simpl in Hc; [|discriminate].
    injection Hc as <-. simpl in *.
    apply String.eqb_neq in Hdev. rewrite Hdev. simpl.
    repeat split.
    + destruct (String.eqb (TrainConfig.data_type self) "bfloat16") eqn:E;
        [discriminate | now apply String.eqb_neq].
    + destruct (String.eqb (TrainConfig.optimizer self) "adamw_bnb_8bit") eqn:E;
        [discriminate | now apply String.eqb_neq].
    + intros ->. reflexivity.
    + intros ->. reflexivity.
  - intros Hin. unfold post_init. now rewrite Hin.
  - apply post_init_returns.
Qed.

(** C10. When [__post_init__] returns: if [data_dicts] was a non-empty
    list, [data_dicts] holds the [DataDictConfig] object of each of its
    entries, in order, and [data_sets] is the given names followed by
    exactly these objects, in the same order; if [data_dicts] was [None] or
    empty, [data_sets] is the given names and nothing else. *)
Theorem post_init_data_dicts (env : Env) (self : TrainConfig.parsed)
    (c : TrainConfig.config) :
  post_init env self = Returned c ->
  (forall d ds,
      TrainConfig.data_dicts self = Some (d :: ds) ->
      TrainConfig.data_dicts c = Some (map DataDictConfig_of (d :: ds))
      /\ TrainConfig.data_sets c
         = map DSName (TrainConfig.data_sets self)
           ++ map DSDict (map DataDictConfig_of (d :: ds)))
  /\ (TrainConfig.data_dicts self = None \/ TrainConfig.data_dicts self = Some [] ->
      TrainConfig.data_sets c = map DSName (TrainConfig.data_sets self)).
Proof.
  intros Hc. unfold post_init in Hc.
  destruct (str_in _ _); simpl in Hc; [|discriminate].
  injection Hc as <-. simpl. split.
  - intros d ds ->. simpl. split; reflexivity.
  - intros [-> | ->]; reflexivity.
Qed.

(** ** Runs of [prepare_dataset] *)

Lemma logged_nil (st : State) : logged st [] = st.
Proof. destruct st. unfold logged. simpl. now rewrite app_nil_r. Qed.

Lemma logged_logged (st : State) (t1 t2 : list Event) :
  logged (logged st t1) t2 = logged st (t1 ++ t2).
Proof. unfold logged. simpl. now rewrite app_assoc. Qed.

Lemma bind_eq {A B} (m : M A) (k : A -> M B) (st : State) :
  bind m k st
  = match m st with
    | (Returned a, st') => k a st'
    | (Raised e, st') => (Raised e, st')
    end.
Proof. reflexivity. Qed.

Lemma for_each_create {A} (f : A -> DataSetEntry) (data_args : Ref) (l : list A)
    (st : State) :
  for_each (fun x => create_dataset (f x) data_args) l st
  = (Returned (map (fun x => SourceDataset (f x) data_args) l),
     logged st (map (fun x => EvCreateDataset (f x) data_args) l)).
Proof.
  revert st. induction l as [|x l IH]; intros st; simpl.
  - unfold ret. now rewrite logged_nil.
  - unfold bind at 1. unfold create_dataset at 1.
    unfold bind at 1. rewrite IH. unfold ret, emit.
    f_equal. unfold logged. simpl. now rewrite <- app_assoc.
Qed.

Lemma resolve_interleave_run (i : InterleaveDataConfig.t + list DataSetEntry)
    (data_args : Ref) (st : State) :
  resolve_interleave i data_args st
  = (Returned (sources_of i data_args, multipliers_of i, stop_of i),
     logged st (creations_of i data_args)).
Proof.
  destruct i as [cfg | names]; unfold resolve_interleave, bind.
  - rewrite for_each_create. unfold ret, sources_of, creations_of. simpl.
    now rewrite !map_map.
  - rewrite (for_each_create (fun ds => ds)). unfold ret, sources_of, creations_of. simpl.
    now rewrite length_map.
Qed.

Lemma check_lengths_run (data_sets : list Dataset) (st : State) :
  check_lengths data_sets st
  = (match find (too_short (heap st)) data_sets with
     | Some d => Raised (AssertionError_too_short d (ds_len (heap st) d))
     | None => Returned tt
     end, st).
Proof.
  unfold check_lengths.
  assert (H : forall l,
             for_each (fun ds => do n <- py_len ds;
                                 py_assert (n >? 1) (AssertionError_too_short ds n)) l st
             = (match find (too_short (heap st)) l with
                | Some d => Raised (AssertionError_too_short d (ds_len (heap st) d))
                | None => Returned (map (fun _ => tt) l)
                end, st)).
  { induction l as [|d l IH]; [reflexivity|].
    cbn [for_each find]. rewrite !bind_eq. unfold py_len at 1. cbv beta iota.
    unfold py_assert at 1, too_short at 1.
    destruct (ds_len (heap st) d >? 1); cbn [negb]; [|reflexivity].
    rewrite bind_eq, IH. now destruct (find _ l). }
  unfold bind. rewrite H. now destruct (find _ data_sets).
Qed.

(** What a call of [prepare_dataset] does, in one equation. *)
Lemma prepare_dataset_run
    (train_args : TrainConfig.config)
    (i : InterleaveDataConfig.t + list DataSetEntry) (data_args : Ref)
    (processor : Processor) (train_on_inputs : bool) (num_samples : option Z)
    (include_alt_fields enforce_ds_len_epoch : bool) (st : State) :
  prepare_dataset train_args i data_args processor train_on_inputs num_samples
    include_alt_fields enforce_ds_len_epoch st
  = match
      (if Z.eqb (TrainConfig.max_steps train_args) 0 && enforce_ds_len_epoch
       then find (too_short (heap st)) (sources_of i data_args) else None)
    with
    | Some d =>
        (Raised (AssertionError_too_short d (ds_len (heap st) d)),
         logged st (creations_of i data_args))
    | None =>
        (Returned
           (Range
              (UltravoxDataproc
                 (InterleaveDataset (sources_of i data_args) (stop_of i) (multipliers_of i))
                 processor train_on_inputs include_alt_fields)
              num_samples),
         logged st
           (creations_of i data_args
            ++ [EvInterleaveDataset (length (sources_of i data_args));
                EvUltravoxDataproc; EvRange num_samples]))
    end.
Proof.
  unfold prepare_dataset. unfold bind at 1. rewrite resolve_interleave_run.
  unfold bind at 1.
  destruct (Z.eqb (TrainConfig.max_steps train_args) 0 && enforce_ds_len_epoch).
  - rewrite check_lengths_run. simpl heap.
    destruct (find _ _); [reflexivity|].
    unfold bind, new_InterleaveDataset, new_UltravoxDataproc, new_Range, ret, emit, logged.
    simpl. now rewrite <- !app_assoc.
  - unfold ret at 1.
    unfold bind, new_InterleaveDataset, new_UltravoxDataproc, new_Range, ret, emit, logged.
    simpl. now rewrite <- !app_assoc.
Qed.

Lemma find_too_short (h : list VoiceDatasetArgs.t) (l : list Dataset) :
  match find (too_short h) l with
  | Some d => In d l /\ ds_len h d <= 1 /\ forallb (fun d => ds_len h d >? 1) l = false
  | None => forallb (fun d => ds_len h d >? 1) l = true
  end.
Proof.
  induction l as [|d l IH]; simpl; [reflexivity|].
  unfold too_short at 1.
  destruct (ds_len h d >? 1) eqn:E; simpl.
  - destruct (find _ l); [|exact IH].
    destruct IH as (Hin & Hle & Hall). auto.
  - repeat split; [now left|]. rewrite Z.gtb_ltb in E. now apply Z.ltb_ge in E.
Qed.

(** Case analysis on the outcome of the length check in the equation of
    [prepare_dataset_run]. *)
Ltac case_length_check :=
  match goal with
  | |- context [match ?c with Some _ => _ | None => _ end] => destruct c
  end.

(** C1. Whenever [prepare_dataset] returns, the dataset it returns is the
    Range Limiter, with the given cap, around the Dataproc Adapter, with
    the given processor and flags, around the Interleave Engine over the
    source datasets created for the entries, in their order; and the
    objects were built in that order: the sources, then the interleave,
    then the adapter, then the limiter. *)
Theorem prepare_dataset_composition
    (train_args : TrainConfig.config)
    (i : InterleaveDataConfig.t + list DataSetEntry) (data_args : Ref)
    (processor : Processor) (train_on_inputs : bool) (num_samples : option Z)
    (include_alt_fields enforce_ds_len_epoch : bool) (st st' : State) (d : Dataset) :
  prepare_dataset train_args i data_args processor train_on_inputs num_samples
    include_alt_fields enforce_ds_len_epoch st = (Returned d, st') ->
  d = Range
        (UltravoxDataproc
           (InterleaveDataset
              (map (fun ds => SourceDataset ds data_args) (entries_of i))
              (stop_of i) (multipliers_of i))
           processor train_on_inputs include_alt_fields)
        num_samples
  /\ trace st'
     = trace st
       ++ map (fun ds => EvCreateDataset ds data_args) (entries_of i)
       ++ [EvInterleaveDataset (length (entries_of i)); EvUltravoxDataproc;
           EvRange num_samples].
Proof.
  rewrite prepare_dataset_run.
  case_length_check; intros H; [discriminate|].
  injection H as <- <-. split; [reflexivity|].
  unfold logged, creations_of, sources_of. simpl. now rewrite length_map.
Qed.

(** C2. Given a plain list of names, [prepare_dataset] settles on the stop
    strategy LAST_EXHAUSTED and on one multiplier 1.0 per source, whatever
    else happens in the call, and the interleave object of the dataset it
    returns carries them; and a [TrainConfig] built with its defaults has
    the stop strategy LAST_EXHAUSTED. *)
Theorem prepare_dataset_plain_list :
  (forall names data_args st,
      fst (resolve_interleave (inr names) data_args st)
      = Returned (map (fun ds => SourceDataset ds data_args) names,
                  repeat 1%Q (length names), LAST_EXHAUSTED))
  /\ (forall train_args names data_args processor train_on_inputs num_samples
             include_alt_fields enforce_ds_len_epoch st st' d,
        prepare_dataset train_args (inr names) data_args processor train_on_inputs
          num_samples include_alt_fields enforce_ds_len_epoch st = (Returned d, st') ->
        exists multipliers,
          interleave_of d
          = Some (InterleaveDataset (map (fun ds => SourceDataset ds data_args) names)
                    LAST_EXHAUSTED multipliers)
          /\ length multipliers = length names
          /\ (forall m, In m multipliers -> m = 1%Q))
  /\ (forall data_sets val_sets text_model audio_model,
        TrainConfig.stop_strategy
          (TrainConfig.defaults data_sets val_sets text_model audio_model)
        = LAST_EXHAUSTED).
Proof.
  split; [|split].
  - intros. now rewrite resolve_interleave_run.
  - intros *. rewrite prepare_dataset_run.
    case_length_check; intros H; [discriminate|].
    injection H as <- <-. exists (repeat 1%Q (length names)).
    split; [reflexivity|]. split; [apply repeat_length|].
    intros m Hm. now apply repeat_spec in Hm.
  - reflexivity.
Qed.

(** C3. With [max_steps] zero and the enforcement on, [prepare_dataset]
    returns when every source reports a length above one, and otherwise
    raises the assertion error for a source whose length is at most one,
    having created the sources and no interleave object; with [max_steps]
    not zero or the enforcement off it returns whatever the lengths are. *)
Theorem prepare_dataset_length_check
    (train_args : TrainConfig.config)
    (i : InterleaveDataConfig.t + list DataSetEntry) (data_args : Ref)
    (processor : Processor) (train_on_inputs : bool) (num_samples : option Z)
    (include_alt_fields enforce_ds_len_epoch : bool) (st : State) :
  let run := prepare_dataset train_args i data_args processor train_on_inputs
               num_samples include_alt_fields enforce_ds_len_epoch st in
  let all_long :=
    forallb (fun d => ds_len (heap st) d >? 1) (sources_of i data_args) in
  (TrainConfig.max_steps train_args = 0 -> enforce_ds_len_epoch = true ->
   (all_long = true -> exists d, fst run = Returned d)
   /\ (all_long = false ->
       exists d,
         In d (sources_of i data_args)
         /\ ds_len (heap st) d <= 1
         /\ fst run = Raised (AssertionError_too_short d (ds_len (heap st) d))
         /\ exists added,
             trace (snd run) = trace st ++ added
             /\ added = map (fun ds => EvCreateDataset ds data_args) (entries_of i)
             /\ forall n, ~ In (EvInterleaveDataset n) added))
  /\ (TrainConfig.max_steps train_args <> 0 \/ enforce_ds_len_epoch = false ->
      exists d, fst run = Returned d).
Proof.
  intros run all_long. subst run all_long. rewrite prepare_dataset_run. split.
  - intros -> ->. simpl andb. cbv iota.
    pose proof (find_too_short (heap st) (sources_of i data_args)) as Hf.
    destruct (find _ _) as [d|]; split.
    + destruct Hf as (_ & _ & Hf). rewrite Hf. discriminate.
    + intros _. destruct Hf as (Hin & Hle & _). exists d.
      repeat split; try assumption.
      exists (creations_of i data_args). repeat split.
      intros n (x & Hx & _)%in_map_iff. discriminate.
    + intros _. eauto.
    + rewrite Hf. discriminate.
  - intros H.
    assert (Z.eqb (TrainConfig.max_steps train_args) 0 && enforce_ds_len_epoch = false)
      as ->.
    { destruct H as [H | ->]; [|apply andb_false_r].
      apply Z.eqb_neq in H. now rewrite H. }
    eauto.
Qed.

(** ** The dataset part of [train] *)

(** C4.  The dataset part of [train] does not get as far as the stand-in
    datasets.  [TrainConfig] declares no field [interleave_datasets], and
    on every rank, the worker ranks included, [train] raises
    [AttributeError] for that name at line 227: before an arguments object
    is made and before any dataset, prepared or stand-in, is built, so that
    the heap and the trace are the ones it started with. *)
Theorem train_datasets_attribute_error :
  str_in "interleave_datasets" TrainConfig.fields = false
  /\ forall (args : TrainConfig.config) (local_rank : Z) (processor : Processor)
            (requires_alt_fields : bool) (st : State),
       train_datasets args local_rank processor requires_alt_fields st
       = (Raised (AttributeError "interleave_datasets"), st).
Proof. split; reflexivity. Qed.

(** ** Arguments objects *)

Lemma creations_calm (i : InterleaveDataConfig.t + list DataSetEntry) (r : Ref) :
  Forall (calm r) (creations_of i r).
Proof.
  apply List.Forall_forall. intros ev (ds & <- & _)%in_map_iff. reflexivity.
Qed.





(** ** The Range Limiter *)

Lemma Range_next_capped {St A} (inner : Iter St A) (cap count : Z) (s : St) :
  Range_next (Some cap) inner (count, s)
  = if cap <=? count then None
    else match inner s with
         | Some (a, s') => Some (a, (count + 1, s'))
         | None => None
         end.
Proof. reflexivity. Qed.

Lemma Range_capped_finite {St A} (inner : Iter St A) (cap : Z) (s : St) (l : list A) :
  yields inner s l ->
  forall count, count <= cap ->
    yields (Range_next (Some cap) inner) (count, s) (take (Z.to_nat (cap - count)) l).
Proof.
  induction 1 as [s Hend | s a s' l Hnext _ IH]; intros count Hle.
  - rewrite take_nil. apply yields_end. rewrite Range_next_capped, Hend.
    now destruct (cap <=? count).
  - destruct (Z.leb_spec cap count) as [Hge | Hlt].
    + replace (cap - count) with 0 by lia. apply yields_end.
      rewrite Range_next_capped. now rewrite (proj2 (Z.leb_le _ _) Hge).
    + replace (Z.to_nat (cap - count)) with (S (Z.to_nat (cap - (count + 1)))) by lia.
      cbn [take]. eapply yields_next; [|apply IH; lia].
      rewrite Range_next_capped, Hnext. now rewrite (proj2 (Z.leb_gt _ _) Hlt).
Qed.

Lemma endless_step {St A} (inner : Iter St A) (s : St) :
  endless inner s -> exists a s', inner s = Some (a, s') /\ endless inner s'.
Proof.
  intros Hs. pose proof (Hs 1%nat) as H1. cbn [pull] in H1.
  destruct (inner s) as [[a s']|] eqn:Hnext; [|discriminate].
  exists a, s'. split; [reflexivity|]. intros n.
  pose proof (Hs (S n)) as Hn. cbn [pull] in Hn. rewrite Hnext in Hn.
  destruct (pull inner n s') as [l s'']. simpl in *. lia.
Qed.

Lemma Range_capped_endless {St A} (inner : Iter St A) (cap : Z) (n : nat) :
  forall (s : St) count,
    endless inner s -> count + Z.of_nat n = cap ->
    yields (Range_next (Some cap) inner) (count, s) (fst (pull inner n s)).
Proof.
  induction n as [|n IH]; intros s count Hs Hcap.
  - apply yields_end. rewrite Range_next_capped.
    now rewrite (proj2 (Z.leb_le cap count)) by lia.
  - destruct (endless_step _ _ Hs) as (a & s' & Hnext & Hs').
    cbn [pull]. rewrite Hnext.
    specialize (IH s' (count + 1) Hs' ltac:(lia)).
    destruct (pull inner n s') as [l s'']. cbn [fst] in *.
    eapply yields_next; [|exact IH].
    rewrite Range_next_capped, Hnext.
    now rewrite (proj2 (Z.leb_gt cap count)) by lia.
Qed.

Lemma Range_uncapped_finite {St A} (inner : Iter St A) (s : St) (l : list A) :
  yields inner s l -> forall count, yields (Range_next None inner) (count, s) l.
Proof.
  induction 1 as [s Hend | s a s' l Hnext _ IH]; intros count.
  - apply yields_end. unfold Range_next. now rewrite Hend.
  - eapply yields_next; [|apply IH]. unfold Range_next. now rewrite Hnext.
Qed.

Lemma Range_uncapped_pull {St A} (inner : Iter St A) (n : nat) :
  forall (s : St) count,
    fst (pull (Range_next None inner) n (count, s)) = fst (pull inner n s).
Proof.
  induction n as [|n IH]; intros s count; [reflexivity|].
  cbn [pull]. unfold Range_next at 1.
  destruct (inner s) as [[a s']|]; [|reflexivity].
  specialize (IH s' (count + 1)).
  destruct (pull (Range_next None inner) n (count + 1, s')) as [l1 t1].
  destruct (pull inner n s') as [l2 t2]. simpl in *. now rewrite IH.
Qed.

(** C6. The Range Limiter over a wrapped sequence, from the start of its
    own iteration and wherever the wrapped sequence stands.  With a cap
    [K] (not negative): if the wrapped sequence delivers [L] samples and
    ends, the limiter delivers the first [min K L] of them and ends; if the
    wrapped sequence never ends, the limiter delivers its first [K] samples
    and ends.  With no cap, it delivers what the wrapped sequence delivers,
    sample for sample, and ends when and only as the wrapped sequence
    does. *)
Theorem Range_limiter_contract {St A} (inner : Iter St A) :
  (forall K s l,
      0 <= K -> yields inner s l ->
      yields (Range_next (Some K) inner) (Range_iter s) (take (Z.to_nat K) l)
      /\ Z.of_nat (length (take (Z.to_nat K) l)) = Z.min K (Z.of_nat (length l)))
  /\ (forall K s,
        0 <= K -> endless inner s ->
        yields (Range_next (Some K) inner) (Range_iter s) (fst (pull inner (Z.to_nat K) s))
        /\ Z.of_nat (length (fst (pull inner (Z.to_nat K) s))) = K)
  /\ (forall s l,
        yields inner s l -> yields (Range_next None inner) (Range_iter s) l)
  /\ (forall s n,
        fst (pull (Range_next None inner) n (Range_iter s)) = fst (pull inner n s)).
Proof.
  split; [|split; [|split]].
  - intros K s l HK Hy. split.
    + pose proof (Range_capped_finite inner K s l Hy 0 HK) as Hr.
      now rewrite Z.sub_0_r in Hr.
    + rewrite length_take. lia.
  - intros K s HK Hs. split.
    + apply Range_capped_endless; [assumption | lia].
    + rewrite (Hs (Z.to_nat K)). lia.
  - intros s l Hy. now apply Range_uncapped_finite.
  - intros s n. apply Range_uncapped_pull.
Qed.

(** ** More on [prepare_dataset] *)

Lemma combine_map_both {A B C} (f : A -> B) (g : A -> C) (l : list A) :
  combine (map f l) (map g l) = map (fun x => (f x, g x)) l.
Proof. induction l as [|x l IH]; [reflexivity|]. simpl. now rewrite IH. Qed.

Lemma find_first {A} (f : A -> bool) (l : list A) (x : A) :
  find f l = Some x ->
  exists before after,
    l = before ++ x :: after /\ f x = true /\ Forall (fun y => f y = false) before.
Proof.
  induction l as [|y l IH]; [discriminate|]. simpl.
  destruct (f y) eqn:Hy.
  - intros [= <-]. exists [], l. repeat split; [assumption | constructor].
  - intros (before & after & -> & Hx & Hb)%IH.
    exists (y :: before), after. repeat split; [assumption | now constructor].
Qed.

(** X7. Given an [InterleaveDataConfig], the interleave object of the
    dataset that [prepare_dataset] returns carries the stop strategy of the
    configuration, and its sources and multipliers pair up as the entries
    of the configuration do: the source created for the dataset of the
    k-th entry, with the arguments object of the call, goes with the
    multiplier of the k-th entry. *)
Theorem prepare_dataset_config
    (train_args : TrainConfig.config) (cfg : InterleaveDataConfig.t) (data_args : Ref)
    (processor : Processor) (train_on_inputs : bool) (num_samples : option Z)
    (include_alt_fields enforce_ds_len_epoch : bool) (st st' : State) (d : Dataset) :
  prepare_dataset train_args (inl cfg) data_args processor train_on_inputs num_samples
    include_alt_fields enforce_ds_len_epoch st = (Returned d, st') ->
  exists data_sets multipliers,
    interleave_of d
    = Some (InterleaveDataset data_sets (InterleaveDataConfig.stop_strategy cfg) multipliers)
    /\ combine data_sets multipliers
       = map (fun e => (SourceDataset (InterleaveDataConfig.dataset e) data_args,
                        InterleaveDataConfig.multiplier e))
             (InterleaveDataConfig.datasets_with_multiplier cfg)
    /\ length data_sets = length (InterleaveDataConfig.datasets_with_multiplier cfg)
    /\ length multipliers = length (InterleaveDataConfig.datasets_with_multiplier cfg).
Proof.
  rewrite prepare_dataset_run.
  case_length_check; intros H; [discriminate|].
  injection H as <- <-. eexists _, _. split; [reflexivity|].
  unfold sources_of. cbn [entries_of multipliers_of]. rewrite map_map.
  split; [apply combine_map_both|]. now rewrite !length_map.
Qed.

(** X8. Whether it returns or raises, [prepare_dataset] leaves every
    arguments object as it is, and what it adds to the trace is calls of
    [create_dataset] with the arguments object it was given and
    constructions of datasets: it creates, copies and assigns to no
    arguments object. *)
Theorem prepare_dataset_frame
    (train_args : TrainConfig.config)
    (i : InterleaveDataConfig.t + list DataSetEntry) (data_args : Ref)
    (processor : Processor) (train_on_inputs : bool) (num_samples : option Z)
    (include_alt_fields enforce_ds_len_epoch : bool) (st : State) :
  let st' := snd (prepare_dataset train_args i data_args processor train_on_inputs
                    num_samples include_alt_fields enforce_ds_len_epoch st) in
  heap st' = heap st
  /\ exists added, trace st' = trace st ++ added /\ Forall (calm data_args) added.
Proof.
  cbv zeta. rewrite prepare_dataset_run.
  pose proof (creations_calm i data_args) as Hcalm.
  case_length_check; cbn [snd logged heap trace]; (split; [reflexivity|]);
    eexists; (split; [reflexivity|]); [exact Hcalm|].
  apply Forall_app. split; [exact Hcalm|].
  repeat (constructor; [exact I|]). constructor.
Qed.

(** X9. When [prepare_dataset] raises, epoch training was asked for with the
    enforcement on, and the error names the first source, in the order of
    the entries, whose reported length is at most one: every source before
    it reports a length above one. *)
Theorem prepare_dataset_first_too_short
    (train_args : TrainConfig.config)
    (i : InterleaveDataConfig.t + list DataSetEntry) (data_args : Ref)
    (processor : Processor) (train_on_inputs : bool) (num_samples : option Z)
    (include_alt_fields enforce_ds_len_epoch : bool) (st st' : State)
    (e : Exception Dataset) :
  prepare_dataset train_args i data_args processor train_on_inputs num_samples
    include_alt_fields enforce_ds_len_epoch st = (Raised e, st') ->
  TrainConfig.max_steps train_args = 0
  /\ enforce_ds_len_epoch = true
  /\ exists before d after,
       map (fun ds => SourceDataset ds data_args) (entries_of i) = before ++ d :: after
       /\ e = AssertionError_too_short d (ds_len (heap st) d)
       /\ ds_len (heap st) d <= 1
       /\ Forall (fun d' => ds_len (heap st) d' > 1) before.
Proof.
  rewrite prepare_dataset_run.
  destruct (Z.eqb_spec (TrainConfig.max_steps train_args) 0) as [Hsteps | Hsteps];
    destruct enforce_ds_len_epoch; cbn [andb]; try discriminate.
  destruct (find _ _) as [d|] eqn:Hfind; [|discriminate].
  intros [= <- _]. split; [assumption|]. split; [reflexivity|].
  apply find_first in Hfind as (before & after & Heq & Hd & Hb).
  exists before, d, after. split; [exact Heq|]. split; [reflexivity|].
  unfold too_short in Hd, Hb. split.
  - apply negb_true_iff in Hd. rewrite Z.gtb_ltb in Hd. now apply Z.ltb_ge in Hd.
  - eapply Forall_impl; [exact Hb|]. intros d' Hd'. cbv beta in Hd'.
    apply negb_false_iff in Hd'. rewrite Z.gtb_ltb in Hd'. apply Z.ltb_lt in Hd'. lia.
Qed.

End Ultravox.

(** * Instances *)

(** A processor that is a token, default field values, and sources whose
    length is the length of their name. *)
Definition args0 : VoiceDatasetArgs.t :=
  {| VoiceDatasetArgs.num_prompts := 1;
     VoiceDatasetArgs.split := TRAIN;
     VoiceDatasetArgs.data_dir := None;
     VoiceDatasetArgs.shuffle := false;
     VoiceDatasetArgs.shuffle_seed := 42;
     VoiceDatasetArgs.max_audio_duration_secs := None;
     VoiceDatasetArgs.include_audio := true;
     VoiceDatasetArgs.use_mds := false;
     VoiceDatasetArgs.mds_batch_size := 32 |}.

Definition len_by_name (ds : DataSetEntry) (a : VoiceDatasetArgs.t) : Z :=
  match ds with
  | DSName n => Z.of_nat (String.length n)
  | DSDict _ => 0
  end.

(** A machine without cuda and without mps. *)
Definition cpu_env : Env :=
  {| cuda_is_available := false;
     mps_is_available := false;
     now_strftime := "exp--2024-01-01--00-00-00";
     WORLD_SIZE := None |}.

(** The parsed configuration with the defaults and one embedded dict. *)
Definition parsed0 : TrainConfig.parsed :=
  let c := TrainConfig.defaults ["boolq"] ["anyset"] "llama" "whisper" in
  {| TrainConfig.data_sets := TrainConfig.data_sets c;
     TrainConfig.val_sets := TrainConfig.val_sets c;
     TrainConfig.text_model := TrainConfig.text_model c;
     TrainConfig.audio_model := TrainConfig.audio_model c;
     TrainConfig.data_dicts := Some [[("path", PyStr "fixie/voices")]];
     TrainConfig.do_train := TrainConfig.do_train c;
     TrainConfig.do_eval := TrainConfig.do_eval c;
     TrainConfig.stop_strategy := TrainConfig.stop_strategy c;
     TrainConfig.data_dir := TrainConfig.data_dir c;
     TrainConfig.mds := TrainConfig.mds c;
     TrainConfig.num_samples := Some 10;
     TrainConfig.val_num_samples := TrainConfig.val_num_samples c;
     TrainConfig.num_prompts := TrainConfig.num_prompts c;
     TrainConfig.train_on_inputs := TrainConfig.train_on_inputs c;
     TrainConfig.shuffle_data := TrainConfig.shuffle_data c;
     TrainConfig.max_audio_duration_secs := TrainConfig.max_audio_duration_secs c;
     TrainConfig.device := TrainConfig.device c;
     TrainConfig.data_type := TrainConfig.data_type c;
     TrainConfig.audio_model_lora_config := TrainConfig.audio_model_lora_config c;
     TrainConfig.disable_layerdrop := TrainConfig.disable_layerdrop c;
     TrainConfig.exp_name := TrainConfig.exp_name c;
     TrainConfig.output_dir := TrainConfig.output_dir c;
     TrainConfig.logs_dir := TrainConfig.logs_dir c;
     TrainConfig.optimizer := "adamw_bnb_8bit";
     TrainConfig.max_steps := TrainConfig.max_steps c;
     TrainConfig.batch_size := TrainConfig.batch_size c;
     TrainConfig.shuffle_seed := TrainConfig.shuffle_seed c |}.

(** The configuration object [__post_init__] leaves for it on that machine. *)
Definition config0 : TrainConfig.config :=
  {| TrainConfig.data_sets := [DSName "boolq"; DSDict (DataDictConfig_of [("path", PyStr "fixie/voices")])];
     TrainConfig.val_sets := ["anyset"];
     TrainConfig.text_model := "llama";
     TrainConfig.audio_model := "whisper";
     TrainConfig.data_dicts := Some [DataDictConfig_of [("path", PyStr "fixie/voices")]];
     TrainConfig.do_train := true;
     TrainConfig.do_eval := true;
     TrainConfig.stop_strategy := LAST_EXHAUSTED;
     TrainConfig.data_dir := None;
     TrainConfig.mds := false;
     TrainConfig.num_samples := Some 10;
     TrainConfig.val_num_samples := 100;
     TrainConfig.num_prompts := 1;
     TrainConfig.train_on_inputs := false;
     TrainConfig.shuffle_data := false;
     TrainConfig.max_audio_duration_secs := None;
     TrainConfig.device := "cpu";
     TrainConfig.data_type := "float32";
     TrainConfig.audio_model_lora_config := None;
     TrainConfig.disable_layerdrop := false;
     TrainConfig.exp_name := Some "exp--2024-01-01--00-00-00";
     TrainConfig.output_dir := Some (PathDiv (PathOf "runs") "exp--2024-01-01--00-00-00");
     TrainConfig.logs_dir :=
       Some (PathDiv (PathDiv (PathOf "runs") "exp--2024-01-01--00-00-00") "logs");
     TrainConfig.optimizer := "adamw_torch";
     TrainConfig.max_steps := 0;
     TrainConfig.batch_size := 2;
     TrainConfig.shuffle_seed := 42 |}.

Example post_init_parsed0 : post_init cpu_env parsed0 = Returned config0.
Proof. reflexivity. Qed.

(** A state with one arguments object. *)
Definition state0 : State := {| heap := [args0]; trace := [] |}.

(** Two sources, of lengths 5 and 1. *)
Definition two_names : InterleaveDataConfig.t + list DataSetEntry :=
  inr [DSName "boolq"; DSName "x"].

(** What [prepare_dataset] returns for them with a cap of 10. *)
Definition limited0 : Dataset unit :=
  Range unit
    (UltravoxDataproc unit
       (InterleaveDataset unit
          [SourceDataset unit (DSName "boolq") 0%nat;
           SourceDataset unit (DSName "x") 0%nat]
          LAST_EXHAUSTED [1%Q; 1%Q])
       tt false false)
    (Some 10).

Example fix_hyphens_data_sets :
  fix_hyphens "--data-sets=a-b" = "--data_sets=a-b".
Proof. reflexivity. Qed.

Example fix_hyphens_positional : fix_hyphens "a-b" = "a-b".
Proof. reflexivity. Qed.

Example fix_hyphens_no_name : fix_hyphens "--=a-b" = "--=a-b".
Proof. reflexivity. Qed.

Lemma fix_hyphens_option_name_witness :
  fix_hyphens ("--" +:+ "val-num-samples" +:+ "=a-b") = "--val_num_samples=a-b"
  /\ fix_hyphens "-x" = "-x".
Proof.
  destruct fix_hyphens_option_name as (Hname & _ & Hother & _). split.
  - apply (Hname "val-num-samples" "=a-b"); reflexivity.
  - apply Hother. reflexivity.
Defined.

Lemma post_init_device_coercion_witness :
  TrainConfig.data_type config0 = "float32"
  /\ TrainConfig.optimizer config0 = "adamw_torch".
Proof.
  destruct (post_init_device_coercion cpu_env parsed0) as (Hco & _ & _).
  destruct (Hco config0) as (_ & _ & Hdt & Hopt);
    [reflexivity | discriminate |].
  split; [apply Hdt | apply Hopt]; reflexivity.
Defined.

Lemma post_init_data_dicts_witness :
  TrainConfig.data_sets config0
  = map DSName ["boolq"]
    ++ map DSDict (map DataDictConfig_of [[("path", PyStr "fixie/voices")]]).
Proof.
  apply (proj1 (post_init_data_dicts cpu_env parsed0 config0 eq_refl)
           [("path", PyStr "fixie/voices")] []).
  reflexivity.
Defined.

Lemma prepare_dataset_composition_witness :
  exists d st',
    prepare_dataset unit args0 len_by_name config0 two_names 0%nat tt false (Some 10)
      false false state0 = (Returned d, st')
    /\ d = limited0
    /\ trace st'
       = [EvCreateDataset (DSName "boolq") 0%nat; EvCreateDataset (DSName "x") 0%nat;
          EvInterleaveDataset 2; EvUltravoxDataproc; EvRange (Some 10)].
Proof.
  exists limited0,
         {| heap := [args0];
            trace := [EvCreateDataset (DSName "boolq") 0%nat;
                      EvCreateDataset (DSName "x") 0%nat;
                      EvInterleaveDataset 2; EvUltravoxDataproc; EvRange (Some 10)] |}.
  split; [reflexivity|].
  exact (prepare_dataset_composition unit args0 len_by_name config0 two_names 0%nat tt
           false (Some 10) false false state0 _ _ eq_refl).
Defined.

Lemma prepare_dataset_plain_list_witness :
  exists multipliers,
    interleave_of unit limited0
    = Some (InterleaveDataset unit
              (map (fun ds => SourceDataset unit ds 0%nat) [DSName "boolq"; DSName "x"])
              LAST_EXHAUSTED multipliers)
    /\ length multipliers = 2%nat
    /\ forall m, In m multipliers -> m = 1%Q.
Proof.
  exact (proj1 (proj2 (prepare_dataset_plain_list unit args0 len_by_name))
           config0 [DSName "boolq"; DSName "x"] 0%nat tt false (Some 10) false false
           state0 _ _ eq_refl).
Defined.

Lemma prepare_dataset_length_check_witness :
  (exists d,
      In d (sources_of unit two_names 0%nat)
      /\ ds_len unit args0 len_by_name (heap state0) d <= 1
      /\ fst (prepare_dataset unit args0 len_by_name config0 two_names 0%nat tt false
                (Some 10) false true state0)
         = Raised (AssertionError_too_short d (ds_len unit args0 len_by_name (heap state0) d))
      /\ exists added,
          trace (snd (prepare_dataset unit args0 len_by_name config0 two_names 0%nat tt
                        false (Some 10) false true state0))
          = trace state0 ++ added
          /\ added = map (fun ds => EvCreateDataset ds 0%nat) (entries_of two_names)
          /\ forall n, ~ In (EvInterleaveDataset n) added)
  /\ (exists d,
         fst (prepare_dataset unit args0 len_by_name config0 two_names 0%nat tt false
                (Some 10) false false state0) = Returned d).
Proof.
  split.
  - exact (proj2 (proj1 (prepare_dataset_length_check unit args0 len_by_name config0
                           two_names 0%nat tt false (Some 10) false true state0)
                    eq_refl eq_refl) eq_refl).
  - exact (proj2 (prepare_dataset_length_check unit args0 len_by_name config0
                    two_names 0%nat tt false (Some 10) false false state0)
             (or_intror eq_refl)).
Defined.

Example prepare_dataset_too_short :
  fst (prepare_dataset unit args0 len_by_name config0 two_names 0%nat tt false
         (Some 10) false true state0)
  = Raised (AssertionError_too_short (SourceDataset unit (DSName "x") 0%nat) 1).
Proof. reflexivity. Qed.

(** The dataset part of [train] on a worker rank, for the configuration
    that [__post_init__] leaves: it raises at the read of
    [args.interleave_datasets], and has built nothing. *)
Example train_datasets_rank_3 :
  train_datasets unit args0 len_by_name 0 config0 3 tt false initial_state
  = (Raised (AttributeError "interleave_datasets"), {| heap := []; trace := [] |}).
Proof. reflexivity. Qed.






(** A list as a sequence that ends, and the integers from [n] on as one
    that does not. *)
Definition list_next {A} : Iter (list A) A :=
  fun l =>
    match l with
    | [] => None
    | a :: l' => Some (a, l')
    end.

Definition count_next : Iter Z Z := fun n => Some (n, n + 1).

Lemma list_next_yields {A} (l : list A) : yields list_next l l.
Proof.
  induction l as [|a l IH]; [now apply yields_end|].
  now apply (yields_next list_next (a :: l) a l l).
Qed.

Lemma count_next_endless (n : Z) : endless count_next n.
Proof.
  intros k. revert n. induction k as [|k IH]; intros n; [reflexivity|].
  cbn [pull count_next]. specialize (IH (n + 1)).
  destruct (pull count_next k (n + 1)) as [l s]. simpl in *. now rewrite IH.
Qed.

Lemma Range_limiter_contract_witness :
  yields (Range_next (Some 2) list_next) (Range_iter [10; 20; 30]) [10; 20]
  /\ yields (Range_next (Some 5) list_next) (Range_iter [10; 20; 30]) [10; 20; 30]
  /\ yields (Range_next (Some 3) count_next) (Range_iter 7) [7; 8; 9]
  /\ yields (Range_next None list_next) (Range_iter [10; 20; 30]) [10; 20; 30].
Proof.
  destruct (Range_limiter_contract (@list_next Z)) as (Hfinite & _ & Hnone & _).
  destruct (Range_limiter_contract count_next) as (_ & Hendless & _).
  repeat split.
  - exact (proj1 (Hfinite 2 _ _ ltac:(lia) (list_next_yields [10; 20; 30]))).
  - exact (proj1 (Hfinite 5 _ _ ltac:(lia) (list_next_yields [10; 20; 30]))).
  - exact (proj1 (Hendless 3 7 ltac:(lia) (count_next_endless 7))).
  - exact (Hnone _ _ (list_next_yields [10; 20; 30])).
Defined.

(** * More of the code *)

(** ** [fix_hyphens], applied again and read character by character *)

(** [t] is [s] with some hyphens turned into underscores: the same length,
    and at each index the same character, or a ["_"] where [s] has a
    ["-"]. *)
Fixpoint hyphen_variant (s t : string) : bool :=
  match s, t with
  | EmptyString, EmptyString => true
  | String c s', String d t' =>
      (Ascii.eqb c d || (Ascii.eqb c "-" && Ascii.eqb d "_")) && hyphen_variant s' t'
  | _, _ => false
  end.

Lemma str_replace_no_eq_sign (s : string) :
  no_eq_sign (str_replace "-" "_" s) = no_eq_sign s.
Proof.
  induction s as [|c s IH]; [reflexivity|].
  cbn [str_replace no_eq_sign]. rewrite IH. f_equal. f_equal.
  destruct (Ascii.eqb c "-") eqn:Hc; [|reflexivity].
  apply Ascii.eqb_eq in Hc. now subst.
Qed.

Lemma str_replace_again (s : string) :
  str_replace "-" "_" (str_replace "-" "_" s) = str_replace "-" "_" s.
Proof.
  induction s as [|c s IH]; [reflexivity|].
  cbn [str_replace]. rewrite IH. f_equal.
  destruct (Ascii.eqb c "-") eqn:Hc; [reflexivity | now rewrite Hc].
Qed.

Lemma hyphen_variant_refl (s : string) : hyphen_variant s s = true.
Proof.
  induction s as [|c s IH]; [reflexivity|].
  cbn [hyphen_variant]. now rewrite Ascii.eqb_refl, IH.
Qed.

Lemma hyphen_variant_replace (s rest : string) :
  hyphen_variant (s +:+ rest) (str_replace "-" "_" s +:+ rest) = true.
Proof.
  induction s as [|c s IH]; [apply hyphen_variant_refl|].
  simpl. rewrite IH, andb_true_r.
  destruct (Ascii.eqb c "-") eqn:Hc.
  - apply orb_true_r.
  - now rewrite Ascii.eqb_refl.
Qed.

Lemma fix_hyphens_dashes (name rest : string) :
  no_eq_sign name = true -> value_segment rest = true ->
  fix_hyphens ("--" +:+ name +:+ rest) = "--" +:+ str_replace "-" "_" name +:+ rest.
Proof.
  intros Hname Hrest.
  change ("--" +:+ name +:+ rest) with (String "-" (String "-" (name +:+ rest))).
  unfold fix_hyphens, match_option_name.
  rewrite Ascii.eqb_refl, (span_not_eq_segments _ _ Hname Hrest).
  destruct name; reflexivity.
Qed.

Lemma fix_hyphens_other (arg : string) :
  String.prefix "--" arg = false -> fix_hyphens arg = arg.
Proof.
  intros Hp. unfold fix_hyphens. now rewrite (match_option_name_no_prefix _ Hp).
Qed.

(** Every argument is of one of the two kinds. *)
Lemma fix_hyphens_cases (arg : string) :
  (exists name rest,
      arg = "--" +:+ name +:+ rest
      /\ no_eq_sign name = true /\ value_segment rest = true)
  \/ String.prefix "--" arg = false.
Proof.
  destruct (String.prefix "--" arg) eqn:Hp; [left | now right].
  apply prefix_dashes in Hp as [rest ->].
  pose proof (span_not_eq_splits rest) as Hs.
  destruct (span_not_eq rest) as [g t]. destruct Hs as (-> & Hg & Ht).
  now exists g, t.
Qed.

Lemma hyphen_variant_length (s t : string) :
  hyphen_variant s t = true -> String.length s = String.length t.
Proof.
  revert t. induction s as [|c s IH]; intros [|d t]; try discriminate; [reflexivity|].
  cbn [hyphen_variant String.length]. intros [_ H]%andb_true_iff. now rewrite (IH t H).
Qed.

(** X1. Applying [fix_hyphens] to its own result changes nothing. *)
Theorem fix_hyphens_idempotent (arg : string) :
  fix_hyphens (fix_hyphens arg) = fix_hyphens arg.
Proof.
  destruct (fix_hyphens_cases arg) as [(name & rest & -> & Hn & Hr) | Hp].
  - rewrite (fix_hyphens_dashes name rest Hn Hr).
    rewrite fix_hyphens_dashes; [|now rewrite str_replace_no_eq_sign | assumption].
    now rewrite str_replace_again.
  - now rewrite !(fix_hyphens_other arg Hp).
Qed.

(** X2. [fix_hyphens] keeps the length of its argument and every one of its
    characters, except that a hyphen may have become an underscore. *)
Theorem fix_hyphens_hyphen_variant (arg : string) :
  hyphen_variant arg (fix_hyphens arg) = true
  /\ String.length (fix_hyphens arg) = String.length arg.
Proof.
  assert (H : hyphen_variant arg (fix_hyphens arg) = true).
  { destruct (fix_hyphens_cases arg) as [(name & rest & -> & Hn & Hr) | Hp].
    - rewrite (fix_hyphens_dashes name rest Hn Hr).
      change (hyphen_variant (name +:+ rest) (str_replace "-" "_" name +:+ rest) = true).
      apply hyphen_variant_replace.
    - rewrite (fix_hyphens_other arg Hp). apply hyphen_variant_refl. }
  split; [exact H | symmetry; now apply hyphen_variant_length].
Qed.

(** ** [TrainConfig.__post_init__]: the other fields it settles *)

(** When [post_init] returns, the result is the record it builds. *)
Lemma post_init_returned (env : Env) (self : TrainConfig.parsed) (c : TrainConfig.config) :
  post_init env self = Returned c ->
  str_in (TrainConfig.data_type self) ["bfloat16"; "float16"; "float32"] = true
  /\ TrainConfig.device c
     = (if String.eqb (TrainConfig.device self) "cuda" && negb (cuda_is_available env)
        then (if mps_is_available env then "mps" else "cpu")
        else TrainConfig.device self)
  /\ TrainConfig.data_type c
     = (if negb (String.eqb (TrainConfig.device c) "cuda")
           && String.eqb (TrainConfig.data_type self) "bfloat16"
        then "float32" else TrainConfig.data_type self)
  /\ TrainConfig.optimizer c
     = (if negb (String.eqb (TrainConfig.device c) "cuda")
           && String.eqb (TrainConfig.optimizer self) "adamw_bnb_8bit"
        then "adamw_torch" else TrainConfig.optimizer self).
Proof.
  unfold post_init. destruct (str_in _ _); simpl; [|discriminate].
  intros [= <-]. simpl. auto.
Qed.

(** X3. After [__post_init__] the experiment name, the output directory and
    the logs directory are all set.  A value that was given is kept; a
    missing name is the formatted time, a missing output directory is
    [runs] joined with the name the object now has, and a missing logs
    directory is [logs] under the output directory the object now has. *)
Theorem post_init_names_the_run (env : Env) (self : TrainConfig.parsed)
    (c : TrainConfig.config) :
  post_init env self = Returned c ->
  exists name out,
    TrainConfig.exp_name c = Some name
    /\ TrainConfig.output_dir c = Some out
    /\ name = default (now_strftime env) (TrainConfig.exp_name self)
    /\ out = default (PathDiv (PathOf "runs") name) (TrainConfig.output_dir self)
    /\ TrainConfig.logs_dir c
       = Some (default (PathDiv out "logs") (TrainConfig.logs_dir self)).
Proof.
  unfold post_init. destruct (str_in _ _); simpl; [|discriminate].
  intros [= <-]. simpl. eexists _, _. split; [reflexivity|]. split; [reflexivity|].
  destruct (TrainConfig.exp_name self), (TrainConfig.output_dir self),
    (TrainConfig.logs_dir self); simpl; auto.
Qed.

(** X4. The device after [__post_init__] is cuda exactly when cuda was asked
    for and is available.  A request for any other device is kept as it is,
    whatever is available; a request for cuda on a machine without it turns
    into mps when mps is available and into cpu otherwise. *)
Theorem post_init_device (env : Env) (self : TrainConfig.parsed)
    (c : TrainConfig.config) :
  post_init env self = Returned c ->
  (TrainConfig.device c = "cuda"
   <-> TrainConfig.device self = "cuda" /\ cuda_is_available env = true)
  /\ (TrainConfig.device self <> "cuda" -> TrainConfig.device c = TrainConfig.device self)
  /\ (TrainConfig.device self = "cuda" -> cuda_is_available env = false ->
      TrainConfig.device c = if mps_is_available env then "mps" else "cpu").
Proof.
  intros (_ & -> & _)%post_init_returned.
  destruct (String.eqb_spec (TrainConfig.device self) "cuda") as [Hd | Hd];
    destruct (cuda_is_available env); simpl.
  - rewrite Hd. split; [tauto|]. split; [congruence | discriminate].
  - split; [|split; [congruence | reflexivity]].
    destruct (mps_is_available env); split; (discriminate || intros [_ H]; discriminate).
  - split; [tauto | split; [reflexivity | congruence]].
  - split; [|split; [reflexivity | congruence]].
    split; [congruence | intros [_ H]; discriminate].
Qed.

(** X5. [__post_init__] changes the data type only from bfloat16 to float32
    and the optimizer only from adamw_bnb_8bit to adamw_torch, and both
    only when the device it settled on is not cuda: float16 and float32 are
    kept on every device, bfloat16 and adamw_bnb_8bit are kept on cuda.
    The data type it leaves is one of the three admitted names. *)
Theorem post_init_coerces_nothing_else (env : Env) (self : TrainConfig.parsed)
    (c : TrainConfig.config) :
  post_init env self = Returned c ->
  (TrainConfig.data_type c = TrainConfig.data_type self
   \/ (TrainConfig.data_type self = "bfloat16" /\ TrainConfig.data_type c = "float32"
       /\ TrainConfig.device c <> "cuda"))
  /\ (TrainConfig.optimizer c = TrainConfig.optimizer self
      \/ (TrainConfig.optimizer self = "adamw_bnb_8bit"
          /\ TrainConfig.optimizer c = "adamw_torch"
          /\ TrainConfig.device c <> "cuda"))
  /\ (TrainConfig.device c = "cuda" ->
      TrainConfig.data_type c = TrainConfig.data_type self
      /\ TrainConfig.optimizer c = TrainConfig.optimizer self)
  /\ str_in (TrainConfig.data_type c) ["bfloat16"; "float16"; "float32"] = true.
Proof.
  intros (Hin & _ & -> & ->)%post_init_returned.
  destruct (String.eqb_spec (TrainConfig.device c) "cuda") as [Hd | Hd]; simpl.
  - repeat split; auto.
  - split; [|split; [|split; [contradiction|]]].
    + destruct (String.eqb_spec (TrainConfig.data_type self) "bfloat16"); auto.
    + destruct (String.eqb_spec (TrainConfig.optimizer self) "adamw_bnb_8bit"); auto.
    + destruct (String.eqb_spec (TrainConfig.data_type self) "bfloat16");
        [reflexivity | assumption].
Qed.

(** X6. [__post_init__] never switches [disable_layerdrop] off: it is set
    afterwards exactly when it was set before, or the audio LoRA rank is
    positive and [WORLD_SIZE] is in the environment. *)
Theorem post_init_layerdrop (env : Env) (self : TrainConfig.parsed)
    (c : TrainConfig.config) :
  post_init env self = Returned c ->
  (TrainConfig.disable_layerdrop self = true -> TrainConfig.disable_layerdrop c = true)
  /\ (TrainConfig.disable_layerdrop c = true
      <-> TrainConfig.disable_layerdrop self = true
          \/ (exists lora,
                 TrainConfig.audio_model_lora_config self = Some lora
                 /\ r lora > 0 /\ is_Some (WORLD_SIZE env))).
Proof.
  unfold post_init. destruct (str_in _ _); simpl; [|discriminate].
  intros [= <-]. simpl.
  destruct (TrainConfig.disable_layerdrop self); simpl.
  - rewrite andb_false_r. split; [reflexivity | split; auto].
  - rewrite andb_true_r. split; [discriminate|].
    destruct (TrainConfig.audio_model_lora_config self) as [lora|]; simpl.
    + destruct (Z.gtb_spec (r lora) 0) as [Hr | Hr]; simpl.
      * destruct (WORLD_SIZE env) as [w|]; simpl.
        -- split; [intros _; right; exists lora; repeat split; [lia | eauto] | reflexivity].
        -- split; [discriminate|].
           intros [H | (l & _ & _ & [w Hw])]; discriminate.
      * split; [discriminate|].
        intros [H | (l & [= <-] & Hl & _)]; [discriminate | lia].
    + split; [discriminate|]. intros [H | (l & H & _)]; discriminate.
Qed.

Lemma post_init_names_the_run_witness :
  exists name out,
    TrainConfig.exp_name config0 = Some name
    /\ TrainConfig.output_dir config0 = Some out
    /\ name = "exp--2024-01-01--00-00-00"
    /\ out = PathDiv (PathOf "runs") name
    /\ TrainConfig.logs_dir config0 = Some (PathDiv out "logs").
Proof. exact (post_init_names_the_run cpu_env parsed0 config0 eq_refl). Defined.

Lemma post_init_device_witness :
  TrainConfig.device config0 = "cpu".
Proof.
  exact (proj2 (proj2 (post_init_device cpu_env parsed0 config0 eq_refl))
           eq_refl eq_refl).
Defined.

Lemma post_init_coerces_nothing_else_witness :
  str_in (TrainConfig.data_type config0) ["bfloat16"; "float16"; "float32"] = true.
Proof.
  exact (proj2 (proj2 (proj2
           (post_init_coerces_nothing_else cpu_env parsed0 config0 eq_refl)))).
Defined.

(** A run under a launcher that sets [WORLD_SIZE], with an audio LoRA of
    rank 8. *)
Definition ddp_env : Env :=
  {| cuda_is_available := true;
     mps_is_available := false;
     now_strftime := "exp--2024-01-01--00-00-00";
     WORLD_SIZE := Some "2" |}.

Definition parsed_lora : TrainConfig.parsed :=
  let c := TrainConfig.defaults ["boolq"] ["anyset"] "llama" "whisper" in
  {| TrainConfig.data_sets := TrainConfig.data_sets c;
     TrainConfig.val_sets := TrainConfig.val_sets c;
     TrainConfig.text_model := TrainConfig.text_model c;
     TrainConfig.audio_model := TrainConfig.audio_model c;
     TrainConfig.data_dicts := TrainConfig.data_dicts c;
     TrainConfig.do_train := TrainConfig.do_train c;
     TrainConfig.do_eval := TrainConfig.do_eval c;
     TrainConfig.stop_strategy := TrainConfig.stop_strategy c;
     TrainConfig.data_dir := TrainConfig.data_dir c;
     TrainConfig.mds := TrainConfig.mds c;
     TrainConfig.num_samples := TrainConfig.num_samples c;
     TrainConfig.val_num_samples := TrainConfig.val_num_samples c;
     TrainConfig.num_prompts := TrainConfig.num_prompts c;
     TrainConfig.train_on_inputs := TrainConfig.train_on_inputs c;
     TrainConfig.shuffle_data := TrainConfig.shuffle_data c;
     TrainConfig.max_audio_duration_secs := TrainConfig.max_audio_duration_secs c;
     TrainConfig.device := TrainConfig.device c;
     TrainConfig.data_type := TrainConfig.data_type c;
     TrainConfig.audio_model_lora_config := Some {| r := 8 |};
     TrainConfig.disable_layerdrop := TrainConfig.disable_layerdrop c;
     TrainConfig.exp_name := Some "lora";
     TrainConfig.output_dir := TrainConfig.output_dir c;
     TrainConfig.logs_dir := TrainConfig.logs_dir c;
     TrainConfig.optimizer := TrainConfig.optimizer c;
     TrainConfig.max_steps := TrainConfig.max_steps c;
     TrainConfig.batch_size := TrainConfig.batch_size c;
     TrainConfig.shuffle_seed := TrainConfig.shuffle_seed c |}.

(** The value a computation returned, or [d] when it raised. *)
Definition returned_or {X A} (d : A) (o : Outcome X A) : A :=
  match o with
  | Returned a => a
  | Raised _ => d
  end.

Definition config_lora : TrainConfig.config :=
  returned_or config0 (post_init ddp_env parsed_lora).

Lemma post_init_layerdrop_witness :
  TrainConfig.disable_layerdrop parsed_lora = false
  /\ TrainConfig.disable_layerdrop config_lora = true.
Proof.
  split; [reflexivity|].
  apply (proj2 (post_init_layerdrop ddp_env parsed_lora config_lora eq_refl)).
  right. exists {| r := 8 |}. repeat split. now exists "2".
Defined.

(** ** The dict [val_sets] of [train] *)

(** [d.get(k)]: the value of the first entry with the key [k]. *)
Definition dict_get {V} (k : string) (d : list (string * V)) : option V :=
  match find (fun kv => String.eqb (fst kv) k) d with
  | Some kv => Some (snd kv)
  | None => None
  end.

Lemma dict_get_set {V} (k k' : string) (v : V) (d : list (string * V)) :
  dict_get k' (dict_set k v d) = if String.eqb k k' then Some v else dict_get k' d.
Proof.
  induction d as [|[k0 v0] d IH].
  - unfold dict_get. simpl. now destruct (String.eqb k k').
  - cbn [dict_set]. destruct (String.eqb_spec k0 k) as [-> | Hne].
    + unfold dict_get. simpl. now destruct (String.eqb k k').
    + unfold dict_get in *. simpl.
      destruct (String.eqb_spec k0 k') as [-> | Hne'].
      * destruct (String.eqb_spec k k'); [congruence | reflexivity].
      * exact IH.
Qed.

Lemma dict_set_keys {V} (k : string) (v : V) (d : list (string * V)) :
  NoDup (map fst d) ->
  NoDup (map fst (dict_set k v d))
  /\ forall k', In k' (map fst (dict_set k v d)) <-> k' = k \/ In k' (map fst d).
Proof.
  induction d as [|[k0 v0] d IH]; intros Hd.
  - simpl. split; [repeat constructor; apply not_elem_of_nil|]. intros k'. split.
    + intros [<- | []]. now left.
    + intros [-> | []]. now left.
  - cbn [dict_set]. apply NoDup_cons in Hd as [Hk0 Hd].
    destruct (IH Hd) as [IHn IHk].
    destruct (String.eqb_spec k0 k) as [-> | Hne]; simpl.
    + split; [now apply NoDup_cons|]. intros k'. split; [auto|].
      intros [-> | H]; [now left | exact H].
    + split.
      * apply NoDup_cons. split; [|exact IHn].
        rewrite list_elem_of_In. rewrite IHk. intros [H | H]; [congruence|].
        apply Hk0. now apply list_elem_of_In.
      * intros k'. rewrite IHk. tauto.
Qed.

Lemma dict_fold_keys {V} (pairs : list (string * V)) :
  forall d,
    NoDup (map fst d) ->
    let d' := fold_left (fun d kv => dict_set (fst kv) (snd kv) d) pairs d in
    NoDup (map fst d')
    /\ forall k, In k (map fst d') <-> In k (map fst d) \/ In k (map fst pairs).
Proof.
  induction pairs as [|[k v] pairs IH]; intros d Hd; cbn [fold_left].
  - split; [exact Hd|]. intros k. simpl. tauto.
  - destruct (dict_set_keys k v d Hd) as [Hn Hk].
    destruct (IH _ Hn) as [IHn IHk]. split; [exact IHn|].
    intros k'. cbv zeta in IHk. rewrite IHk, Hk. simpl.
    split; intros H; intuition (subst; auto).
Qed.

Lemma text_key_eqb (x y : string) :
  String.eqb ("text_" +:+ y) ("text_" +:+ x) = String.eqb y x.
Proof. reflexivity. Qed.

Lemma text_key_prefix (y : string) : String.prefix "text_" ("text_" +:+ y) = true.
Proof. simpl. now destruct y. Qed.

Lemma dict_fold_plain (x : string) (vs : list string) :
  forall d : list (string * list DataSetEntry),
    dict_get x (fold_left (fun d kv => dict_set (fst kv) (snd kv) d)
                  (map (fun y => (y, [DSName y])) vs) d)
    = if existsb (String.eqb x) vs then Some [DSName x] else dict_get x d.
Proof.
  induction vs as [|y vs IH]; intros d; [reflexivity|].
  cbn [map fold_left existsb fst snd]. rewrite IH, dict_get_set.
  destruct (existsb (String.eqb x) vs); [now rewrite orb_true_r|].
  rewrite orb_false_r, (String.eqb_sym x y).
  destruct (String.eqb_spec y x) as [-> | _]; reflexivity.
Qed.

Lemma dict_fold_text (x : string) (vs : list string) :
  forall d : list (string * list DataSetEntry),
    dict_get ("text_" +:+ x)
      (fold_left (fun d kv => dict_set (fst kv) (snd kv) d)
         (map (fun y => ("text_" +:+ y, [DSName y])) vs) d)
    = if existsb (String.eqb x) vs then Some [DSName x]
      else dict_get ("text_" +:+ x) d.
Proof.
  induction vs as [|y vs IH]; intros d; [reflexivity|].
  cbn [map fold_left existsb fst snd]. rewrite IH, dict_get_set, text_key_eqb.
  destruct (existsb (String.eqb x) vs); [now rewrite orb_true_r|].
  rewrite orb_false_r, (String.eqb_sym x y).
  destruct (String.eqb_spec y x) as [-> | _]; reflexivity.
Qed.

Lemma dict_fold_text_other (k : string) (vs : list string) :
  String.prefix "text_" k = false ->
  forall d : list (string * list DataSetEntry),
    dict_get k
      (fold_left (fun d kv => dict_set (fst kv) (snd kv) d)
         (map (fun y => ("text_" +:+ y, [DSName y])) vs) d)
    = dict_get k d.
Proof.
  intros Hk. induction vs as [|y vs IH]; intros d; [reflexivity|].
  cbn [map fold_left fst snd]. rewrite IH, dict_get_set.
  destruct (String.eqb_spec ("text_" +:+ y) k) as [<- | _]; [|reflexivity].
  now rewrite text_key_prefix in Hk.
Qed.

(** X12. The dict [val_sets] that [train] builds from [args.val_sets]: its
    keys are distinct and are exactly the names of [args.val_sets] and
    these names with [text_] put before them; the entry [text_x] of a name
    [x] holds the list with [x] alone, and so does the entry [x] of a name
    that does not itself start with [text_]. *)
Theorem val_sets_dict_entries (args : TrainConfig.config) :
  NoDup (map fst (val_sets_dict args))
  /\ (forall k,
        In k (map fst (val_sets_dict args))
        <-> In k (TrainConfig.val_sets args)
            \/ exists x, In x (TrainConfig.val_sets args) /\ k = "text_" +:+ x)
  /\ (forall x,
        In x (TrainConfig.val_sets args) ->
        dict_get ("text_" +:+ x) (val_sets_dict args) = Some [DSName x])
  /\ (forall x,
        In x (TrainConfig.val_sets args) -> String.prefix "text_" x = false ->
        dict_get x (val_sets_dict args) = Some [DSName x]).
Proof.
  unfold val_sets_dict, dict_of_pairs.
  set (vs := TrainConfig.val_sets args).
  assert (Hex : forall x, In x vs -> existsb (String.eqb x) vs = true).
  { intros x Hx. apply existsb_exists. exists x. split; [exact Hx | apply String.eqb_refl]. }
  destruct (dict_fold_keys
              (map (fun x => (x, [DSName x])) vs
               ++ map (fun x => ("text_" +:+ x, [DSName x])) vs) [] (NoDup_nil_2))
    as [Hn Hk].
  split; [exact Hn|]. split; [|split].
  - intros k. cbv zeta in Hk. rewrite Hk, map_app, !map_map, in_app_iff. simpl.
    rewrite map_id, in_map_iff. split.
    + intros [[] | [H | (x & <- & Hx)]]; eauto.
    + intros [H | (x & Hx & ->)]; eauto.
  - intros x Hx. rewrite fold_left_app, dict_fold_text. now rewrite (Hex x Hx).
  - intros x Hx Hp. rewrite fold_left_app, (dict_fold_text_other x vs Hp).
    rewrite dict_fold_plain. now rewrite (Hex x Hx).
Qed.

(** A name that starts with [text_] next to the name it extends: the entry
    [text_a] is taken by the text-only run of [a]. *)
Example val_sets_dict_collision :
  val_sets_dict
    {| TrainConfig.data_sets := TrainConfig.data_sets config0;
       TrainConfig.val_sets := ["a"; "text_a"];
       TrainConfig.text_model := TrainConfig.text_model config0;
       TrainConfig.audio_model := TrainConfig.audio_model config0;
       TrainConfig.data_dicts := TrainConfig.data_dicts config0;
       TrainConfig.do_train := TrainConfig.do_train config0;
       TrainConfig.do_eval := TrainConfig.do_eval config0;
       TrainConfig.stop_strategy := TrainConfig.stop_strategy config0;
       TrainConfig.data_dir := TrainConfig.data_dir config0;
       TrainConfig.mds := TrainConfig.mds config0;
       TrainConfig.num_samples := TrainConfig.num_samples config0;
       TrainConfig.val_num_samples := TrainConfig.val_num_samples config0;
       TrainConfig.num_prompts := TrainConfig.num_prompts config0;
       TrainConfig.train_on_inputs := TrainConfig.train_on_inputs config0;
       TrainConfig.shuffle_data := TrainConfig.shuffle_data config0;
       TrainConfig.max_audio_duration_secs := TrainConfig.max_audio_duration_secs config0;
       TrainConfig.device := TrainConfig.device config0;
       TrainConfig.data_type := TrainConfig.data_type config0;
       TrainConfig.audio_model_lora_config := TrainConfig.audio_model_lora_config config0;
       TrainConfig.disable_layerdrop := TrainConfig.disable_layerdrop config0;
       TrainConfig.exp_name := TrainConfig.exp_name config0;
       TrainConfig.output_dir := TrainConfig.output_dir config0;
       TrainConfig.logs_dir := TrainConfig.logs_dir config0;
       TrainConfig.optimizer := TrainConfig.optimizer config0;
       TrainConfig.max_steps := TrainConfig.max_steps config0;
       TrainConfig.batch_size := TrainConfig.batch_size config0;
       TrainConfig.shuffle_seed := TrainConfig.shuffle_seed config0 |}
  = [("a", [DSName "a"]); ("text_a", [DSName "a"]); ("text_text_a", [DSName "text_a"])].
Proof. reflexivity. Qed.

Lemma val_sets_dict_entries_witness :
  dict_get "text_anyset" (val_sets_dict config0) = Some [DSName "anyset"]
  /\ dict_get "anyset" (val_sets_dict config0) = Some [DSName "anyset"].
Proof.
  destruct (val_sets_dict_entries config0) as (_ & _ & Htext & Hplain). split.
  - apply (Htext "anyset"). now left.
  - apply (Hplain "anyset"); [now left | reflexivity].
Defined.

(** ** The trainer arguments that [train] computes (lines 207 and 290 to 320) *)

(** The three [torch] data types that [__post_init__] admits. *)
Inductive TorchDtype := torch_bfloat16 | torch_float16 | torch_float32.

(** [getattr(torch, name)] for the names that [__post_init__] admits; the
    other attributes of [torch] are not part of the model. *)
Definition torch_getattr (name : string) : option TorchDtype :=
  if String.eqb name "bfloat16" then Some torch_bfloat16
  else if String.eqb name "float16" then Some torch_float16
  else if String.eqb name "float32" then Some torch_float32
  else None.

Definition TorchDtype_eqb (a b : TorchDtype) : bool :=
  match a, b with
  | torch_bfloat16, torch_bfloat16
  | torch_float16, torch_float16
  | torch_float32, torch_float32 => true
  | _, _ => false
  end.

(** The arguments of [Seq2SeqTrainingArguments] that [train] computes. *)
Record TrainingArguments := {
  dataloader_num_workers : Z;
  per_device_train_batch_size : Z;
  fp16 : bool;
  bf16 : bool;
  use_cpu : bool;
  seed : Z
}.

(** [num_workers] and [seed_] are [args.num_workers] and [args.seed];
    [world_size] and [local_rank] are read from the environment at the top
    of [train]. *)
Definition training_arguments (args : TrainConfig.config) (num_workers seed_ : Z)
    (world_size local_rank : Z) : option TrainingArguments :=
  match torch_getattr (TrainConfig.data_type args) with
  | None => None
  | Some dtype =>
      let is_master := Z.eqb local_rank 0 in
      Some {| dataloader_num_workers := if is_master then num_workers else 0;
              per_device_train_batch_size := TrainConfig.batch_size args * world_size;
              fp16 := TorchDtype_eqb dtype torch_float16;
              bf16 := TorchDtype_eqb dtype torch_bfloat16;
              use_cpu := String.eqb (TrainConfig.device args) "cpu";
              seed := seed_ + local_rank |}
  end.

(** X13. For a configuration that [__post_init__] returned, [train] finds
    the data type and computes the trainer arguments; they never ask for
    fp16 and bf16 together, ask for bf16 only on cuda, so never together
    with [use_cpu], and give a rank other than the master no data loader
    worker. *)
Theorem training_arguments_after_post_init (env : Env) (self : TrainConfig.parsed)
    (c : TrainConfig.config) (num_workers seed_ world_size local_rank : Z) :
  post_init env self = Returned c ->
  exists ta,
    training_arguments c num_workers seed_ world_size local_rank = Some ta
    /\ fp16 ta && bf16 ta = false
    /\ (bf16 ta = true -> TrainConfig.device c = "cuda")
    /\ use_cpu ta && bf16 ta = false
    /\ (local_rank <> 0 -> dataloader_num_workers ta = 0).
Proof.
  intros (Hin & _ & Hdt & _)%post_init_returned.
  assert (Hcases :
            (TrainConfig.data_type c = "bfloat16" /\ TrainConfig.device c = "cuda")
            \/ TrainConfig.data_type c = "float16"
            \/ TrainConfig.data_type c = "float32").
  { rewrite Hdt. unfold str_in in Hin. cbn [existsb] in Hin.
    destruct (String.eqb_spec (TrainConfig.device c) "cuda") as [Hd | Hd];
      cbn [negb andb];
      destruct (String.eqb_spec (TrainConfig.data_type self) "bfloat16") as [Hb | _];
      auto;
      destruct (String.eqb_spec (TrainConfig.data_type self) "float16") as [Hf | _];
      auto;
      destruct (String.eqb_spec (TrainConfig.data_type self) "float32") as [Hs | _];
      auto; discriminate. }
  assert (Hrank : local_rank <> 0 -> (if Z.eqb local_rank 0 then num_workers else 0) = 0).
  { intros Hr. apply Z.eqb_neq in Hr. now rewrite Hr. }
  unfold training_arguments, torch_getattr.
  destruct Hcases as [[-> Hd] | [-> | ->]]; cbn [String.eqb Ascii.eqb Bool.eqb andb];
    eexists; (split; [reflexivity|]);
    cbn [fp16 bf16 use_cpu dataloader_num_workers TorchDtype_eqb andb];
    rewrite ?andb_false_r.
  - rewrite Hd. repeat split; auto.
  - repeat split; auto; discriminate.
  - repeat split; auto; discriminate.
Qed.

Lemma training_arguments_after_post_init_witness :
  exists ta,
    training_arguments config0 8 42 2 1 = Some ta
    /\ fp16 ta && bf16 ta = false
    /\ (bf16 ta = true -> TrainConfig.device config0 = "cuda")
    /\ use_cpu ta && bf16 ta = false
    /\ (1 <> 0 -> dataloader_num_workers ta = 0).
Proof.
  exact (training_arguments_after_post_init cpu_env parsed0 config0 8 42 2 1 eq_refl).
Defined.

(** ** [run_oaievalset] *)

From stdpp Require Import gmap pretty.

Local Open Scope Z_scope.

(** [if num_samples:] for an optional integer: neither [None] nor zero. *)
Definition int_truthy (n : option Z) : bool :=
  match n with
  | Some n => negb (Z.eqb n 0)
  | None => false
  end.

(** The list [command] of [run_oaievalset] when the first process is
    started; an integer in an f-string is written in decimal. *)
Definition oaievalset_command (log_dir model_dir eval_set : string)
    (num_samples : option Z) : list string :=
  let command :=
    ["oaievalset"; "--record_dir"; log_dir; "generation/gpu/ultravox-dev"; eval_set;
     "--completion_args=model=" +:+ model_dir] in
  if int_truthy num_samples
  then command ++ ["--max_samples=" +:+ pretty (default 0 num_samples)]
  else command.

(** The command of the second process. *)
Definition make_table_command (log_dir : string) : list string :=
  ["python"; "-m"; "evals.elsuite.audio.make_table"; "--out_dir"; log_dir;
   "--log_dir"; log_dir].

(** [s.endswith("/")]. *)
Fixpoint ends_with_slash (s : string) : bool :=
  match s with
  | EmptyString => false
  | String c EmptyString => Ascii.eqb c "/"
  | String _ s' => ends_with_slash s'
  end.

(** [os.path.join(a, b)] of [posixpath]. *)
Definition posix_join (a b : string) : string :=
  if String.prefix "/" b then b
  else if String.eqb a "" || ends_with_slash a then a +:+ b
  else a +:+ "/" +:+ b.

(** [subprocess.CalledProcessError]. *)
Inductive CalledProcessError := CalledProcessError_of (returncode : Z) (cmd : list string).

Section Oaieval.

(** The world outside the process, a child process run to its end in it
    (the command and the environment it gets; its exit code and the world
    it leaves), and [pd.read_csv]. *)
Variable World : Type.
Variable DataFrame : Type.
Variable spawn : World -> list string -> gmap string string -> Z * World.
Variable read_csv : World -> string -> DataFrame.

(** [subprocess.run(command, check=True, env=env)]: the processes started
    so far are kept with the world. *)
Definition subprocess_run_check (command : list string) (env : gmap string string)
    (st : list (list string * gmap string string) * World)
  : Outcome CalledProcessError unit * (list (list string * gmap string string) * World) :=
  let '(code, w) := spawn (snd st) command env in
  (if Z.eqb code 0 then Returned tt else Raised (CalledProcessError_of code command),
   (fst st ++ [(command, env)], w)).

(** [environ] is [os.environ]; a call of [subprocess.run] without [env]
    gives the child the environment of the process. *)
Definition run_oaievalset (environ : gmap string string)
    (log_dir model_dir eval_set : string) (num_samples : option Z) (w : World)
  : Outcome CalledProcessError DataFrame * (list (list string * gmap string string) * World) :=
  let env := <["CUDA_VISIBLE_DEVICES" := "0"]> (<["EVALS_THREADS" := "64"]> environ) in
  let command := oaievalset_command log_dir model_dir eval_set num_samples in
  match subprocess_run_check command env ([], w) with
  | (Raised e, st) => (Raised e, st)
  | (Returned _, st) =>
      match subprocess_run_check (make_table_command log_dir) environ st with
      | (Raised e, st) => (Raised e, st)
      | (Returned _, st) =>
          (Returned (read_csv (snd st) (posix_join log_dir "results.csv")), st)
      end
  end.

(** X15. [run_oaievalset] stops at the first process that fails.  When the
    evaluation process exits with a code other than zero, it raises the
    error of that process and the table process is not started; when the
    evaluation process exits with zero and the table process does not, it
    raises the error of the table process; it returns only when both exit
    with zero, and then it returns the table read in the world the table
    process left. *)
Theorem run_oaievalset_fail_fast (environ : gmap string string)
    (log_dir model_dir eval_set : string) (num_samples : option Z) (w : World) :
  let env := <["CUDA_VISIBLE_DEVICES" := "0"]> (<["EVALS_THREADS" := "64"]> environ) in
  let command := oaievalset_command log_dir model_dir eval_set num_samples in
  let table := make_table_command log_dir in
  let run := run_oaievalset environ log_dir model_dir eval_set num_samples w in
  let first := spawn w command env in
  let second := spawn (snd first) table environ in
  (fst first <> 0 ->
   run = (Raised (CalledProcessError_of (fst first) command),
          ([(command, env)], snd first)))
  /\ (fst first = 0 -> fst second <> 0 ->
      run = (Raised (CalledProcessError_of (fst second) table),
             ([(command, env); (table, environ)], snd second)))
  /\ (forall df st, run = (Returned df, st) ->
        fst first = 0 /\ fst second = 0
        /\ st = ([(command, env); (table, environ)], snd second)
        /\ df = read_csv (snd second) (posix_join log_dir "results.csv")).
Proof.
  cbv zeta. unfold run_oaievalset, subprocess_run_check. cbn [fst snd app].
  destruct (spawn w _ _) as [code1 w1]. cbn [fst snd].
  destruct (Z.eqb_spec code1 0) as [-> | H1].
  - destruct (spawn w1 _ _) as [code2 w2]. cbn [fst snd].
    destruct (Z.eqb_spec code2 0) as [-> | H2].
    + split; [intros []; reflexivity|]. split; [intros _ []; reflexivity|].
      intros df st [= <- <-]. auto.
    + split; [intros []; reflexivity|]. split; [reflexivity|]. discriminate.
  - split; [reflexivity|]. split; [contradiction | discriminate].
Qed.

(** X16. The evaluation process gets the environment of the caller with
    [EVALS_THREADS] set to 64 and [CUDA_VISIBLE_DEVICES] set to 0 and every
    other variable as it is; every later process, that is the table
    process, gets the environment of the caller itself, without these two
    settings. *)
Theorem run_oaievalset_environment (environ : gmap string string)
    (log_dir model_dir eval_set : string) (num_samples : option Z) (w : World) :
  exists env later,
    fst (snd (run_oaievalset environ log_dir model_dir eval_set num_samples w))
    = (oaievalset_command log_dir model_dir eval_set num_samples, env) :: later
    /\ env !! "EVALS_THREADS" = Some "64"
    /\ env !! "CUDA_VISIBLE_DEVICES" = Some "0"
    /\ (forall k, k <> "EVALS_THREADS" -> k <> "CUDA_VISIBLE_DEVICES" ->
                  env !! k = environ !! k)
    /\ (forall c e, In (c, e) later -> c = make_table_command log_dir /\ e = environ).
Proof.
  set (env := <["CUDA_VISIBLE_DEVICES" := "0"]> (<["EVALS_THREADS" := "64"]> environ)).
  assert (He1 : env !! "EVALS_THREADS" = Some "64").
  { subst env. rewrite lookup_insert_ne by discriminate. apply lookup_insert_eq. }
  assert (He2 : env !! "CUDA_VISIBLE_DEVICES" = Some "0").
  { subst env. apply lookup_insert_eq. }
  assert (He3 : forall k, k <> "EVALS_THREADS" -> k <> "CUDA_VISIBLE_DEVICES" ->
                          env !! k = environ !! k).
  { intros k Hk1 Hk2. subst env. now rewrite !lookup_insert_ne by congruence. }
  unfold run_oaievalset, subprocess_run_check. fold env. cbn [fst snd app].
  destruct (spawn w (oaievalset_command log_dir model_dir eval_set num_samples) env)
    as [code1 w1].
  destruct (Z.eqb code1 0); cbn [fst snd app].
  - destruct (spawn w1 (make_table_command log_dir) environ) as [code2 w2].
    exists env, [(make_table_command log_dir, environ)].
    destruct (Z.eqb code2 0); cbn [fst snd]; (split; [reflexivity|]);
      (split; [exact He1|]); (split; [exact He2|]); (split; [exact He3|]);
      intros c e [[= <- <-] | []]; now split.
  - exists env, []. cbn [fst snd]. split; [reflexivity|].
    split; [exact He1|]. split; [exact He2|]. split; [exact He3|]. intros c e [].
Qed.

End Oaieval.

Lemma pretty_Z_no_eq_prefix (n m : Z) (s : string) :
  s +:+ pretty n = s +:+ pretty m -> n = m.
Proof.
  induction s as [|c s IH]; simpl.
  - apply (inj pretty).
  - intros [= H]. now apply IH.
Qed.

(** X14. The command of the evaluation process ends with the token
    [--max_samples=N], with [N] in decimal, exactly when [num_samples] is
    an integer other than zero; for [None] and for zero alike it is the six
    tokens without a cap.  Two caps other than zero give the same command
    only when they are equal. *)
Theorem oaievalset_command_max_samples (log_dir model_dir eval_set : string) :
  let six :=
    ["oaievalset"; "--record_dir"; log_dir; "generation/gpu/ultravox-dev"; eval_set;
     "--completion_args=model=" +:+ model_dir] in
  oaievalset_command log_dir model_dir eval_set None = six
  /\ oaievalset_command log_dir model_dir eval_set (Some 0) = six
  /\ (forall n, n <> 0 ->
        oaievalset_command log_dir model_dir eval_set (Some n)
        = six ++ ["--max_samples=" +:+ pretty n])
  /\ (forall n m, n <> 0 -> m <> 0 ->
        oaievalset_command log_dir model_dir eval_set (Some n)
        = oaievalset_command log_dir model_dir eval_set (Some m) ->
        n = m).
Proof.
  cbv zeta. split; [reflexivity|]. split; [reflexivity|].
  assert (Hn : forall n, n <> 0 ->
             oaievalset_command log_dir model_dir eval_set (Some n)
             = ["oaievalset"; "--record_dir"; log_dir; "generation/gpu/ultravox-dev";
                eval_set; "--completion_args=model=" +:+ model_dir]
               ++ ["--max_samples=" +:+ pretty n]).
  { intros n Hn. unfold oaievalset_command, int_truthy.
    apply Z.eqb_neq in Hn. now rewrite Hn. }
  split; [exact Hn|].
  intros n m Hnz Hmz. rewrite (Hn n Hnz), (Hn m Hmz).
  intros H. apply app_inv_head in H. injection H as H.
  exact (pretty_Z_no_eq_prefix n m "" H).
Qed.

Example oaievalset_command_100 :
  oaievalset_command "logs/oaieval/audio" "runs/exp" "audio-core" (Some 100)
  = ["oaievalset"; "--record_dir"; "logs/oaieval/audio"; "generation/gpu/ultravox-dev";
     "audio-core"; "--completion_args=model=runs/exp"; "--max_samples=100"].
Proof. reflexivity. Qed.

Lemma oaievalset_command_max_samples_witness :
  oaievalset_command "logs" "runs/exp" "audio-core" (Some 100)
  = ["oaievalset"; "--record_dir"; "logs"; "generation/gpu/ultravox-dev";
     "audio-core"; "--completion_args=model=runs/exp"]
    ++ ["--max_samples=" +:+ pretty 100].
Proof.
  apply (proj1 (proj2 (proj2
           (oaievalset_command_max_samples "logs" "runs/exp" "audio-core")))).
  discriminate.
Defined.

(** A world in which the evaluation process fails with the code 2. *)
Definition failing_spawn (w : nat) (command : list string) (env : gmap string string)
  : Z * nat :=
  (match command with
   | "oaievalset" :: _ => 2
   | _ => 0
   end, S w).

Lemma run_oaievalset_fail_fast_witness :
  run_oaievalset nat unit failing_spawn (fun _ _ => tt) ∅ "logs" "runs/exp" "audio-core"
    None O
  = (Raised (CalledProcessError_of 2
               (oaievalset_command "logs" "runs/exp" "audio-core" None)),
     ([(oaievalset_command "logs" "runs/exp" "audio-core" None,
        <["CUDA_VISIBLE_DEVICES" := "0"]> (<["EVALS_THREADS" := "64"]> ∅))],
      1%nat)).
Proof.
  apply (proj1 (run_oaievalset_fail_fast nat unit failing_spawn (fun _ _ => tt) ∅
                  "logs" "runs/exp" "audio-core" None O)).
  discriminate.
Defined.

(** ** Instances for [prepare_dataset] and [train] *)

(** An interleave configuration with two weighted entries. *)
Definition cfg0 : InterleaveDataConfig.t :=
  {| InterleaveDataConfig.datasets_with_multiplier :=
       [{| InterleaveDataConfig.dataset := DSName "boolq";
           InterleaveDataConfig.multiplier := 2%Q |};
        {| InterleaveDataConfig.dataset := DSName "squad";
           InterleaveDataConfig.multiplier := (1 # 2)%Q |}];
     InterleaveDataConfig.stop_strategy := FIRST_EXHAUSTED |}.

Definition run_cfg0 : Outcome (Exception (Dataset unit)) (Dataset unit) * State :=
  prepare_dataset unit args0 len_by_name config0 (inl cfg0) 0%nat tt false None false true
    state0.

Example run_cfg0_returns :
  fst run_cfg0
  = Returned
      (Range unit
         (UltravoxDataproc unit
            (InterleaveDataset unit
               [SourceDataset unit (DSName "boolq") 0%nat;
                SourceDataset unit (DSName "squad") 0%nat]
               FIRST_EXHAUSTED [2%Q; (1 # 2)%Q])
            tt false false)
         None).
Proof. reflexivity. Qed.

Lemma prepare_dataset_config_witness :
  exists data_sets multipliers,
    interleave_of unit (returned_or limited0 (fst run_cfg0))
    = Some (InterleaveDataset unit data_sets FIRST_EXHAUSTED multipliers)
    /\ combine data_sets multipliers
       = [(SourceDataset unit (DSName "boolq") 0%nat, 2%Q);
          (SourceDataset unit (DSName "squad") 0%nat, (1 # 2)%Q)]
    /\ length data_sets = 2%nat
    /\ length multipliers = 2%nat.
Proof.
  exact (prepare_dataset_config unit args0 len_by_name config0 cfg0 0%nat tt false None
           false true state0 (snd run_cfg0) (returned_or limited0 (fst run_cfg0)) eq_refl).
Defined.

Definition run_too_short : Outcome (Exception (Dataset unit)) (Dataset unit) * State :=
  prepare_dataset unit args0 len_by_name config0 (inr [DSName "boolq"; DSName "x"; DSName "y"])
    0%nat tt false (Some 10) false true state0.

Lemma prepare_dataset_first_too_short_witness :
  TrainConfig.max_steps config0 = 0
  /\ true = true
  /\ exists before d after,
       [SourceDataset unit (DSName "boolq") 0%nat; SourceDataset unit (DSName "x") 0%nat;
        SourceDataset unit (DSName "y") 0%nat]
       = before ++ d :: after
       /\ AssertionError_too_short (SourceDataset unit (DSName "x") 0%nat) 1
          = AssertionError_too_short d (ds_len unit args0 len_by_name (heap state0) d)
       /\ ds_len unit args0 len_by_name (heap state0) d <= 1
       /\ Forall (fun d' => ds_len unit args0 len_by_name (heap state0) d' > 1) before.
Proof.
  exact (prepare_dataset_first_too_short unit args0 len_by_name config0
           (inr [DSName "boolq"; DSName "x"; DSName "y"]) 0%nat tt false (Some 10) false
           true state0 (snd run_too_short)
           (AssertionError_too_short (SourceDataset unit (DSName "x") 0%nat) 1) eq_refl).
Defined.
